(** * monday.com reader (llama_hub/mondaydotcom/base.py)

    A shallow embedding of the two [MondayReader] classes of [base.py] and
    the properties of [load_data].

    The reader walks dynamically typed JSON, so the embedding carries a small
    model of the Python values involved ([value]), of the exceptions the
    walk can raise ([exn]) and of the handful of built-in operations the
    source uses (subscripting, [list(...)], [in], truthiness, [+] on
    strings, f-string formatting).  The HTTP round trip, [json.loads] and
    the [repr] of containers are outside the file: they are the fields of a
    [World] the definitions are parameterised by.

    Modelling conventions.
    - A Python [int] is a [Z]; JSON numbers are integers, and those of a
      response stay within the limit on integer-to-string conversion (the
      JSON parser reads them under the same limit), so that formatting
      them in a text does not fail.  The identifiers a caller passes are
      under no such limit: formatting them into a query can fail.
    - A Python [str] is a [string]; no operation of the reader looks inside
      the characters of a string it received, apart from the substring test
      of [in].
    - A [dict] is an association list in insertion order; a lookup takes the
      first binding of the key.
    - A call either returns a value ([Ok]) or raises ([Raise]). *)

From Stdlib Require Import String Ascii List ZArith Lia Bool DecimalString.
From Stdlib Require Import DecimalPos DecimalZ.
Import ListNotations.
Local Open Scope string_scope.

(** ** Python values and exceptions *)

#[local] Set Warnings "-register-all".

Inductive value : Type :=
| VNone
| VBool (b : bool)
| VInt (z : Z)
| VStr (s : string)
| VList (l : list value)
| VDict (kvs : list (string * value)).

Inductive exn : Type :=
| AssertionError (msg : string)
| KeyError (key : value)
| IndexError
| TypeError
| UnboundLocalError (name : string)
| ValueError
| ExternalError (msg : string).

Inductive result (A : Type) : Type :=
| Ok (a : A)
| Raise (e : exn).

Arguments Ok {A} a.
Arguments Raise {A} e.

Definition bind {A B : Type} (c : result A) (k : A -> result B) : result B :=
  match c with
  | Ok a => k a
  | Raise e => Raise e
  end.

Declare Scope py_scope.
Delimit Scope py_scope with py.
Notation "x <- c ;; k" := (bind c (fun x => k))
  (at level 61, c at next level, right associativity) : py_scope.
Local Open Scope py_scope.

(** [list(map(f, l))]: the elements are visited in order and the first
    exception ends the traversal. *)
Fixpoint mapM {A B : Type} (f : A -> result B) (l : list A) : result (list B) :=
  match l with
  | [] => Ok []
  | a :: l' => b <- f a ;; bs <- mapM f l' ;; Ok (b :: bs)
  end.

(** [for a in l: s = body(s, a)]. *)
Fixpoint foldM {A S : Type} (body : S -> A -> result S) (l : list A) (s : S)
  : result S :=
  match l with
  | [] => Ok s
  | a :: l' => s' <- body s a ;; foldM body l' s'
  end.

(** The two characters Python writes [\n] and [\t]. *)
Definition LF : string := String (ascii_of_nat 10) EmptyString.
Definition TAB : string := String (ascii_of_nat 9) EmptyString.

(** ** Dictionaries *)

Fixpoint dict_get (k : string) (kvs : list (string * value)) : option value :=
  match kvs with
  | [] => None
  | (k', v) :: rest => if String.eqb k k' then Some v else dict_get k rest
  end.

(** [d[k] = v] *)
Fixpoint dict_set (kvs : list (string * value)) (k : string) (v : value)
  : list (string * value) :=
  match kvs with
  | [] => [(k, v)]
  | (k', v') :: rest =>
      if String.eqb k k' then (k', v) :: rest else (k', v') :: dict_set rest k v
  end.

Definition dict_has (k : string) (kvs : list (string * value)) : bool :=
  match dict_get k kvs with Some _ => true | None => false end.

(** ** Built-in operations *)

(** [v[k]] with a string [k]. *)
Definition getitem (v : value) (k : string) : result value :=
  match v with
  | VDict kvs =>
      match dict_get k kvs with
      | Some x => Ok x
      | None => Raise (KeyError (VStr k))
      end
  | _ => Raise TypeError
  end.

(** [v[0]].  The keys of a JSON object are strings, so [0] is never among
    them. *)
Definition getitem0 (v : value) : result value :=
  match v with
  | VList [] => Raise IndexError
  | VList (x :: _) => Ok x
  | VDict _ => Raise (KeyError (VInt 0))
  | VStr EmptyString => Raise IndexError
  | VStr (String c _) => Ok (VStr (String c EmptyString))
  | _ => Raise TypeError
  end.

Fixpoint chars (s : string) : list value :=
  match s with
  | EmptyString => []
  | String c s' => VStr (String c EmptyString) :: chars s'
  end.

(** [list(v)]: a list is copied, a dict yields its keys, a string its
    characters; nothing else is iterable. *)
Definition py_list (v : value) : result (list value) :=
  match v with
  | VList l => Ok l
  | VDict kvs => Ok (map (fun kv => VStr (fst kv)) kvs)
  | VStr s => Ok (chars s)
  | _ => Raise TypeError
  end.

Fixpoint substring_in (needle hay : string) : bool :=
  prefix needle hay ||
  match hay with
  | EmptyString => false
  | String _ hay' => substring_in needle hay'
  end.

Definition is_str (k : string) (v : value) : bool :=
  match v with
  | VStr s => String.eqb k s
  | _ => false
  end.

(** [k in v] with a string [k]: key membership on a dict, element
    membership on a list, substring test on a string. *)
Definition py_in (k : string) (v : value) : result bool :=
  match v with
  | VDict kvs => Ok (dict_has k kvs)
  | VList l => Ok (existsb (is_str k) l)
  | VStr s => Ok (substring_in k s)
  | _ => Raise TypeError
  end.

(** Truth value of [v] in an [if]. *)
Definition truthy (v : value) : bool :=
  match v with
  | VNone => false
  | VBool b => b
  | VInt z => negb (z =? 0)%Z
  | VStr s => negb (String.eqb s "")
  | VList l => match l with [] => false | _ => true end
  | VDict kvs => match kvs with [] => false | _ => true end
  end.

(** [a + b] where one operand is known to be a string: it is a
    concatenation when the other is a string too and a [TypeError]
    otherwise. *)
Definition str_add (a b : value) : result string :=
  match a, b with
  | VStr x, VStr y => Ok (x ++ y)
  | _, _ => Raise TypeError
  end.

(** The decimal digits of [z], with a minus sign when it is negative. *)
Definition format_d (z : Z) : string := NilZero.string_of_int (Z.to_int z).

(** An integer is converted to a string only if it has no more digits than
    the interpreter's limit (4300 unless configured otherwise); beyond it
    the conversion raises a [ValueError]. *)
Definition int_max_str_digits : nat := 4300.

Definition decimal_digits (z : Z) : nat := String.length (format_d (Z.abs z)).

Definition fits (z : Z) : bool := Nat.leb (decimal_digits z) int_max_str_digits.

(** [template % z] for a template with one [%d], where [filled z] is the
    template with the digits of [z] in the place of [%d]. *)
Definition percent_d (filled : Z -> string) (z : Z) : result string :=
  if fits z then Ok (filled z) else Raise ValueError.

(** ** Identifiers: an [int] argument that defaults to [None] *)

Definition id_value (i : option Z) : value :=
  match i with
  | Some z => VInt z
  | None => VNone
  end.

Definition is_not_None (i : option Z) : bool :=
  match i with
  | Some _ => true
  | None => false
  end.

Definition id_truthy (i : option Z) : bool := truthy (id_value i).

(** ** The outside world *)

Record Request : Type := mkRequest {
  req_url : string;
  req_json : list (string * string);
  req_headers : list (string * string)
}.

(** [post_json rq] is [requests.post(url, json, headers).json()];
    [json_loads] is [json.loads]; [py_repr] is [repr] on lists and dicts. *)
Record World : Type := mkWorld {
  post_json : Request -> result value;
  json_loads : string -> result value;
  py_repr : value -> string
}.

(** [Document(text=..., extra_info=...)] *)
Record Document : Type := mkDocument {
  text : string;
  extra_info : list (string * value)
}.

(** [self] *)
Record reader : Type := mkReader {
  api_key : string;
  api_url : string
}.

(** What an f-string puts in place of [{v}]. *)
Definition format_value (W : World) (v : value) : string :=
  match v with
  | VStr s => s
  | VNone => "None"
  | VBool true => "True"
  | VBool false => "False"
  | VInt z => format_d z
  | VList _ | VDict _ => py_repr W v
  end.

(** ** The first [MondayReader] class (lines 9-88)

    The module defines the class twice; this is the definition the second
    one shadows. *)

Module MondayReader_1.

Definition __init__ (key : string) : reader :=
  {| api_key := key; api_url := "https://api.monday.com/v2" |}.

Definition _parse_item_values (cv : value) : result value :=
  let data := [] in
  title <- getitem cv "title" ;;
  let data := dict_set data "title" title in
  txt <- getitem cv "text" ;;
  let data := dict_set data "value" txt in
  Ok (VDict data).

Definition _parse_data (item : value) : result value :=
  let data := [] in
  id <- getitem item "id" ;;
  let data := dict_set data "id" id in
  name <- getitem item "name" ;;
  let data := dict_set data "name" name in
  cvs <- getitem item "column_values" ;;
  cvl <- py_list cvs ;;
  values <- mapM _parse_item_values cvl ;;
  let data := dict_set data "values" (VList values) in
  Ok (VDict data).

(** The board query, with the digits of [board_id] in the place of [%d]. *)
Definition board_query (board_id : Z) : string :=
  "
            query{
                boards(ids: [" ++ format_d board_id ++ "]){
                    name,
                    items{
                        id,
                        name,
                        column_values{
                            title,
                            text
                        }
                    }
                }
            } ".

Definition request (self : reader) (board_id : Z) : result Request :=
  let headers := [("Authorization", api_key self)] in
  query <- percent_d board_query board_id ;;
  let data := [("query", query)] in
  Ok {| req_url := api_url self; req_json := data; req_headers := headers |}.

Section Methods.

Variable W : World.

Definition _perform_request (self : reader) (board_id : Z) : result value :=
  rq <- request self board_id ;;
  post_json W rq.

(** Lines 78-81: the text of one parsed item. *)
Definition item_text (item : value) : result string :=
  name <- getitem item "name" ;;
  values <- getitem item "values" ;;
  vl <- py_list values ;;
  foldM (fun text item_value =>
           v <- getitem item_value "value" ;;
           if truthy v then
             title <- getitem item_value "title" ;;
             v' <- getitem item_value "value" ;;
             Ok (text ++ ", " ++ format_value W title ++ ": " ++ format_value W v')
           else Ok text)
        vl ("name: " ++ format_value W name).

Definition load_data (self : reader) (board_id : Z) : result (list Document) :=
  json_response <- _perform_request self board_id ;;
  d <- getitem json_response "data" ;;
  bs <- getitem d "boards" ;;
  board_data <- getitem0 bs ;;
  _ <- getitem board_data "name" ;;
  items <- getitem board_data "items" ;;
  items_array <- py_list items ;;
  copy <- py_list (VList items_array) ;;
  parsed_items <- mapM _parse_data copy ;;
  foldM (fun result item =>
           text <- item_text item ;;
           id <- getitem item "id" ;;
           Ok (result ++ [ {| text := text;
                              extra_info := [("board_id", VInt board_id);
                                             ("item_id", id)] |} ])%list)
        parsed_items [].

End Methods.

End MondayReader_1.

(** ** The second [MondayReader] class (lines 101-226): the one in effect *)

Module MondayReader.

Definition __init__ (key : string) : reader :=
  {| api_key := key; api_url := "https://api.monday.com/v2" |}.

Definition _parse_item_values (cv : value) : result value :=
  let data := [] in
  title <- getitem cv "title" ;;
  let data := dict_set data "title" title in
  txt <- getitem cv "text" ;;
  let data := dict_set data "value" txt in
  Ok (VDict data).

Definition _parse_data (item : value) : result value :=
  let data := [] in
  id <- getitem item "id" ;;
  let data := dict_set data "id" id in
  name <- getitem item "name" ;;
  let data := dict_set data "name" name in
  cvs <- getitem item "column_values" ;;
  cvl <- py_list cvs ;;
  values <- mapM _parse_item_values cvl ;;
  let data := dict_set data "values" (VList values) in
  Ok (VDict data).

(** The board query, with the digits of [board_id] in the place of [%d]. *)
Definition board_query (board_id : Z) : string :=
  "
                query{
                    boards(ids: [" ++ format_d board_id ++ "]){
                        name,
                        items{
                            id,
                            name,
                            column_values{
                                title,
                                text
                            }
                        }
                    }
                } ".

(** The doc query, with the digits of [doc_id] in the place of [%d]. *)
Definition doc_query (doc_id : Z) : string :=
  "
                query{
                docs (object_ids: [" ++ format_d doc_id ++ "], limit: 1) {
                    name
                    object_id
                    blocks{
                            id
                            type
                            content
                        }
                    created_by {
                            id
                            name
                        }
                }
                }".

(** Lines 144-160: [query] after the test on [board_id]; [None] stands for
    the local variable not being bound. *)
Definition query_after_board_test (board_id : option Z)
  : result (option string) :=
  match board_id with
  | Some b =>
      if id_truthy board_id
      then query <- percent_d board_query b ;; Ok (Some query)
      else Ok None
  | None => Ok None
  end.

(** Lines 162-180: [query] after the test on [doc_id]. *)
Definition query_after_doc_test (query : option string) (doc_id : option Z)
  : result (option string) :=
  match doc_id with
  | Some d =>
      if id_truthy doc_id
      then query' <- percent_d doc_query d ;; Ok (Some query')
      else Ok query
  | None => Ok query
  end.

(** Lines 142-182: the request that is posted, when [query] is bound. *)
Definition request (self : reader) (board_id doc_id : option Z)
  : result Request :=
  let headers := [("Authorization", api_key self)] in
  query <- query_after_board_test board_id ;;
  query <- query_after_doc_test query doc_id ;;
  match query with
  | None => Raise (UnboundLocalError "query")
  | Some q =>
      let data := [("query", q)] in
      Ok {| req_url := api_url self; req_json := data; req_headers := headers |}
  end.

Section Methods.

Variable W : World.

(** Lines 133-136: the text of one insert operation. *)
Definition insert_text (insert : value) : result value :=
  text <- getitem insert "insert" ;;
  has_attributes <- py_in "attributes" insert ;;
  if has_attributes then
    attributes <- getitem insert "attributes" ;;
    has_link <- py_in "link" attributes ;;
    if has_link then
      t <- str_add text (VStr " url: ") ;;
      attributes' <- getitem insert "attributes" ;;
      link <- getitem attributes' "link" ;;
      t' <- str_add (VStr t) link ;;
      Ok (VStr t')
    else Ok text
  else Ok text.

Definition _read_block (block : value) : result string :=
  let block_text := "" in
  content <- getitem block "content" ;;
  loaded <- match content with
            | VStr s => json_loads W s
            | _ => Raise TypeError
            end ;;
  deltaFormat <- getitem loaded "deltaFormat" ;;
  deltaFormat_array <- py_list deltaFormat ;;
  foldM (fun block_text insert =>
           text <- insert_text insert ;;
           t <- str_add (VStr block_text) text ;;
           str_add (VStr t) (VStr (" " ++ TAB)))
        deltaFormat_array block_text.

Definition _perform_request (self : reader) (board_id doc_id : option Z)
  : result value :=
  rq <- request self board_id doc_id ;;
  post_json W rq.

(** Lines 210-213: the text of one parsed item. *)
Definition item_text (item : value) : result string :=
  name <- getitem item "name" ;;
  values <- getitem item "values" ;;
  vl <- py_list values ;;
  foldM (fun text item_value =>
           v <- getitem item_value "value" ;;
           if truthy v then
             title <- getitem item_value "title" ;;
             v' <- getitem item_value "value" ;;
             Ok (text ++ ", " ++ format_value W title ++ ": " ++ format_value W v')
           else Ok text)
        vl ("name: " ++ format_value W name).

(** Lines 204-218: the branch of [if board_id:]. *)
Definition load_data_board (board_id : option Z) (json_response : value)
  : result (list Document) :=
  d <- getitem json_response "data" ;;
  bs <- getitem d "boards" ;;
  data <- getitem0 bs ;;
  items_array <- getitem data "items" ;;
  copy <- py_list items_array ;;
  parsed_items <- mapM _parse_data copy ;;
  foldM (fun result item =>
           text <- item_text item ;;
           id <- getitem item "id" ;;
           Ok (result ++ [ {| text := text;
                              extra_info := [("board_id", id_value board_id);
                                             ("item_id", id)] |} ])%list)
        parsed_items [].

(** Lines 220-224: the branch of [elif doc_id:]. *)
Definition load_data_doc (doc_id : option Z) (json_response : value)
  : result (list Document) :=
  d <- getitem json_response "data" ;;
  ds <- getitem d "docs" ;;
  data <- getitem0 ds ;;
  blocks <- getitem data "blocks" ;;
  blocks_array <- py_list blocks ;;
  lines_arr <- mapM _read_block blocks_array ;;
  let doc_text := String.concat (" " ++ LF) lines_arr in
  doc_name <- getitem data "name" ;;
  creator <- getitem data "created_by" ;;
  creator_name <- getitem creator "name" ;;
  Ok [ {| text := doc_text;
          extra_info := [("doc_id", id_value doc_id);
                         ("doc_name", doc_name);
                         ("created_by", creator_name)] |} ].

Definition load_data (self : reader) (board_id doc_id : option Z)
  : result (list Document) :=
  if negb (is_not_None board_id || is_not_None doc_id) then
    Raise (AssertionError "Either board_id or doc_id is required")
  else
    json_response <- _perform_request self board_id doc_id ;;
    if id_truthy board_id then load_data_board board_id json_response
    else if id_truthy doc_id then load_data_doc doc_id json_response
    else Raise (UnboundLocalError "result").

End Methods.

End MondayReader.

(** ** Well-formed responses

    The shape the reader expects of a response, stated through the lookups
    that must succeed.  Keys the reader does not read may be present. *)

Record Column : Type := mkColumn {
  col_title : value;
  col_value : value
}.

Record Item : Type := mkItem {
  item_id : value;
  item_name : value;
  item_columns : list Column
}.

Definition is_column (cv : value) (c : Column) : Prop :=
  getitem cv "title" = Ok (col_title c) /\
  getitem cv "text" = Ok (col_value c).

Definition is_item (item : value) (it : Item) : Prop :=
  getitem item "id" = Ok (item_id it) /\
  getitem item "name" = Ok (item_name it) /\
  exists cvs,
    getitem item "column_values" = Ok (VList cvs) /\
    Forall2 is_column cvs (item_columns it).

(** [json_response["data"]["boards"][0]] *)
Definition first_board (json_response : value) : result value :=
  d <- getitem json_response "data" ;;
  bs <- getitem d "boards" ;;
  getitem0 bs.

(** [json_response["data"]["docs"][0]] *)
Definition first_doc (json_response : value) : result value :=
  d <- getitem json_response "data" ;;
  ds <- getitem d "docs" ;;
  getitem0 ds.

(** The items of the first board, as [load_data] iterates them. *)
Definition board_items (json_response : value) : result (list value) :=
  data <- first_board json_response ;;
  items <- getitem data "items" ;;
  py_list items.

Record Insert : Type := mkInsert {
  ins_text : string;
  ins_link : option string
}.

Definition absent (v : value) (k : string) : Prop :=
  getitem v k = Raise (KeyError (VStr k)).

Definition is_insert (op : value) (i : Insert) : Prop :=
  getitem op "insert" = Ok (VStr (ins_text i)) /\
  match ins_link i with
  | Some l =>
      exists a, getitem op "attributes" = Ok a /\ getitem a "link" = Ok (VStr l)
  | None =>
      absent op "attributes" \/
      exists a, getitem op "attributes" = Ok a /\ absent a "link"
  end.

Definition is_block (W : World) (block : value) (ops : list Insert) : Prop :=
  exists s loaded arr,
    getitem block "content" = Ok (VStr s) /\
    json_loads W s = Ok loaded /\
    getitem loaded "deltaFormat" = Ok (VList arr) /\
    Forall2 is_insert arr ops.

Record Doc : Type := mkDoc {
  doc_name : value;
  doc_creator : value;
  doc_blocks : list (list Insert)
}.

Definition is_doc (W : World) (data : value) (d : Doc) : Prop :=
  (exists blocks,
     getitem data "blocks" = Ok (VList blocks) /\
     Forall2 (is_block W) blocks (doc_blocks d)) /\
  getitem data "name" = Ok (doc_name d) /\
  exists c, getitem data "created_by" = Ok c /\
            getitem c "name" = Ok (doc_creator d).

(** ** The texts and documents the reader is to produce *)

Definition column_text (W : World) (c : Column) : string :=
  ", " ++ format_value W (col_title c) ++ ": " ++ format_value W (col_value c).

Definition nonempty (c : Column) : bool := truthy (col_value c).

Definition board_item_text (W : World) (it : Item) : string :=
  "name: " ++ format_value W (item_name it)
  ++ String.concat "" (map (column_text W) (filter nonempty (item_columns it))).

Definition board_document (W : World) (board_id : option Z) (it : Item)
  : Document :=
  {| text := board_item_text W it;
     extra_info := [("board_id", id_value board_id); ("item_id", item_id it)] |}.

Definition op_text (i : Insert) : string :=
  match ins_link i with
  | Some l => ins_text i ++ " url: " ++ l
  | None => ins_text i
  end.

(** Every operation's text is followed by a space and a tab. *)
Definition block_text (ops : list Insert) : string :=
  String.concat "" (map (fun i => op_text i ++ " " ++ TAB) ops).

(** The blocks are joined by a space and a newline. *)
Definition doc_text (blocks : list (list Insert)) : string :=
  String.concat (" " ++ LF) (map block_text blocks).

Definition doc_document (doc_id : option Z) (d : Doc) : Document :=
  {| text := doc_text (doc_blocks d);
     extra_info := [("doc_id", id_value doc_id);
                    ("doc_name", doc_name d);
                    ("created_by", doc_creator d)] |}.

(** The doc text as the specification words it: operations joined by a tab,
    blocks joined by a newline. *)
Definition tab_joined (ops : list Insert) : string :=
  String.concat TAB (map op_text ops).

Definition newline_joined (blocks : list (list Insert)) : string :=
  String.concat LF (map tab_joined blocks).

(** Exactly one of the two identifiers is given. *)
Definition exactly_one (board_id doc_id : option Z) : bool :=
  xorb (is_not_None board_id) (is_not_None doc_id).

Definition precondition_error : exn :=
  AssertionError "Either board_id or doc_id is required".

(** What [_parse_item_values] and [_parse_data] return on well-formed
    input. *)
Definition parsed_column (c : Column) : value :=
  VDict [("title", col_title c); ("value", col_value c)].

Definition parsed_item (it : Item) : value :=
  VDict [("id", item_id it); ("name", item_name it);
         ("values", VList (map parsed_column (item_columns it)))].

(** The metadata of a board document against the item it comes from. *)
Definition board_metadata (board_id : option Z) (item : value) (doc : Document)
  : Prop :=
  exists id,
    getitem item "id" = Ok id /\
    extra_info doc = [("board_id", id_value board_id); ("item_id", id)].


(** ** Responses that lack a key the reader reads

    [lacks_key W board_mode r k]: walking the response [r] the way the
    board branch (or the doc branch) does, everything met before is well
    formed and then the key [k] is not there. *)

Inductive column_lacks : value -> string -> Prop :=
| no_title cv :
    absent cv "title" -> column_lacks cv "title"
| no_text cv t :
    getitem cv "title" = Ok t -> absent cv "text" -> column_lacks cv "text".

Inductive item_lacks : value -> string -> Prop :=
| no_id item :
    absent item "id" -> item_lacks item "id"
| no_name item i :
    getitem item "id" = Ok i -> absent item "name" -> item_lacks item "name"
| no_column_values item i n :
    getitem item "id" = Ok i -> getitem item "name" = Ok n ->
    absent item "column_values" -> item_lacks item "column_values"
| in_column item i n pre bad post cols k :
    getitem item "id" = Ok i -> getitem item "name" = Ok n ->
    getitem item "column_values" = Ok (VList (pre ++ bad :: post)) ->
    Forall2 is_column pre cols ->
    column_lacks bad k -> item_lacks item k.

Inductive board_lacks : value -> string -> Prop :=
| no_boards r d :
    getitem r "data" = Ok d -> absent d "boards" -> board_lacks r "boards"
| no_items r data :
    first_board r = Ok data -> absent data "items" -> board_lacks r "items"
| in_item r data pre bad post its k :
    first_board r = Ok data ->
    getitem data "items" = Ok (VList (pre ++ bad :: post)) ->
    Forall2 is_item pre its ->
    item_lacks bad k -> board_lacks r k.

Inductive block_lacks (W : World) : value -> string -> Prop :=
| no_content block :
    absent block "content" -> block_lacks W block "content"
| no_deltaFormat block s loaded :
    getitem block "content" = Ok (VStr s) -> json_loads W s = Ok loaded ->
    absent loaded "deltaFormat" -> block_lacks W block "deltaFormat"
| no_insert block s loaded pre bad post ops :
    getitem block "content" = Ok (VStr s) -> json_loads W s = Ok loaded ->
    getitem loaded "deltaFormat" = Ok (VList (pre ++ bad :: post)) ->
    Forall2 is_insert pre ops ->
    absent bad "insert" -> block_lacks W block "insert".

Inductive doc_lacks (W : World) : value -> string -> Prop :=
| no_docs r d :
    getitem r "data" = Ok d -> absent d "docs" -> doc_lacks W r "docs"
| no_blocks r data :
    first_doc r = Ok data -> absent data "blocks" -> doc_lacks W r "blocks"
| in_block r data pre bad post bl k :
    first_doc r = Ok data ->
    getitem data "blocks" = Ok (VList (pre ++ bad :: post)) ->
    Forall2 (is_block W) pre bl ->
    block_lacks W bad k -> doc_lacks W r k
| no_doc_name r data blocks bl :
    first_doc r = Ok data ->
    getitem data "blocks" = Ok (VList blocks) ->
    Forall2 (is_block W) blocks bl ->
    absent data "name" -> doc_lacks W r "name"
| no_created_by r data blocks bl n :
    first_doc r = Ok data ->
    getitem data "blocks" = Ok (VList blocks) ->
    Forall2 (is_block W) blocks bl ->
    getitem data "name" = Ok n ->
    absent data "created_by" -> doc_lacks W r "created_by"
| no_creator_name r data blocks bl n c :
    first_doc r = Ok data ->
    getitem data "blocks" = Ok (VList blocks) ->
    Forall2 (is_block W) blocks bl ->
    getitem data "name" = Ok n ->
    getitem data "created_by" = Ok c ->
    absent c "name" -> doc_lacks W r "name".

Inductive lacks_key (W : World) (board_mode : bool) : value -> string -> Prop :=
| no_data r :
    absent r "data" -> lacks_key W board_mode r "data"
| board_key r k :
    board_mode = true -> board_lacks r k -> lacks_key W board_mode r k
| doc_key r k :
    board_mode = false -> doc_lacks W r k -> lacks_key W board_mode r k.

(** ** Where an [AssertionError] can come from

    A computation is [clean] when it does not raise an [AssertionError];
    the world is [quiet] when the HTTP round trip and [json.loads] are. *)

Definition clean {A : Type} (c : result A) : Prop :=
  forall msg, c <> Raise (AssertionError msg).

Definition quiet (W : World) : Prop :=
  (forall rq, clean (post_json W rq)) /\ (forall s, clean (json_loads W s)).

(** ** Sample data *)

Definition DQ : string := String (ascii_of_nat 34) EmptyString.

Definition quoted (s : string) : string := DQ ++ s ++ DQ.

Definition sample_reader : reader := MondayReader.__init__ "api_key".

Definition sample_item_1 : value :=
  VDict [("id", VStr "101"); ("name", VStr "Write report");
         ("column_values",
          VList [VDict [("title", VStr "Status"); ("text", VStr "Done")];
                 VDict [("title", VStr "Owner"); ("text", VStr "")];
                 VDict [("title", VStr "Due"); ("text", VNone)];
                 VDict [("title", VStr "Priority"); ("text", VStr "High")]])].

Definition sample_item_2 : value :=
  VDict [("id", VStr "102"); ("name", VStr "Review");
         ("column_values",
          VList [VDict [("title", VStr "Status"); ("text", VStr "")];
                 VDict [("title", VStr "Owner"); ("text", VStr "Ada")]])].

Definition sample_it_1 : Item :=
  {| item_id := VStr "101"; item_name := VStr "Write report";
     item_columns := [ {| col_title := VStr "Status"; col_value := VStr "Done" |};
                       {| col_title := VStr "Owner"; col_value := VStr "" |};
                       {| col_title := VStr "Due"; col_value := VNone |};
                       {| col_title := VStr "Priority"; col_value := VStr "High" |} ] |}.

Definition sample_it_2 : Item :=
  {| item_id := VStr "102"; item_name := VStr "Review";
     item_columns := [ {| col_title := VStr "Status"; col_value := VStr "" |};
                       {| col_title := VStr "Owner"; col_value := VStr "Ada" |} ] |}.

Definition sample_items : list Item := [sample_it_1; sample_it_2].

Definition sample_board : value :=
  VDict [("name", VStr "Tasks"); ("items", VList [sample_item_1; sample_item_2])].

Definition sample_board_response : value :=
  VDict [("data", VDict [("boards", VList [sample_board])])].

(** The same board, sent without its [name]. *)
Definition nameless_board_response : value :=
  VDict [("data",
          VDict [("boards",
                  VList [VDict [("items", VList [sample_item_1; sample_item_2])]])])].

(** A board whose second item comes without an [id]. *)
Definition broken_board_response : value :=
  VDict [("data",
          VDict [("boards",
                  VList [VDict [("name", VStr "Tasks");
                                ("items",
                                 VList [sample_item_1;
                                        VDict [("name", VStr "Review");
                                               ("column_values", VList [])]])]])])].

(** The [content] strings of two blocks and what [json.loads] makes of
    them. *)
Definition sample_content_1 : string :=
  "{" ++ quoted "deltaFormat" ++ ": [{" ++ quoted "insert" ++ ": "
  ++ quoted "Hello" ++ "}, {" ++ quoted "insert" ++ ": " ++ quoted "site"
  ++ ", " ++ quoted "attributes" ++ ": {" ++ quoted "link" ++ ": "
  ++ quoted "https://example.org" ++ "}}]}".

Definition sample_content_2 : string :=
  "{" ++ quoted "deltaFormat" ++ ": [{" ++ quoted "insert" ++ ": "
  ++ quoted "Bye" ++ ", " ++ quoted "attributes" ++ ": {" ++ quoted "bold"
  ++ ": true}}]}".

Definition sample_op_link : value :=
  VDict [("insert", VStr "site");
         ("attributes", VDict [("link", VStr "https://example.org")])].

Definition sample_delta_1 : value :=
  VDict [("deltaFormat", VList [VDict [("insert", VStr "Hello")]; sample_op_link])].

Definition sample_delta_2 : value :=
  VDict [("deltaFormat",
          VList [VDict [("insert", VStr "Bye");
                        ("attributes", VDict [("bold", VBool true)])]])].

Definition sample_loads (s : string) : result value :=
  if String.eqb s sample_content_1 then Ok sample_delta_1
  else if String.eqb s sample_content_2 then Ok sample_delta_2
  else Raise (ExternalError "JSONDecodeError").

Definition sample_doc_data : value :=
  VDict [("name", VStr "Notes"); ("object_id", VStr "777");
         ("blocks",
          VList [VDict [("id", VStr "b1"); ("type", VStr "normal text");
                        ("content", VStr sample_content_1)];
                 VDict [("id", VStr "b2"); ("type", VStr "normal text");
                        ("content", VStr sample_content_2)]]);
         ("created_by", VDict [("id", VStr "7"); ("name", VStr "Ada")])].

Definition sample_doc_response : value :=
  VDict [("data", VDict [("docs", VList [sample_doc_data])])].

Definition sample_doc : Doc :=
  {| doc_name := VStr "Notes";
     doc_creator := VStr "Ada";
     doc_blocks := [ [ {| ins_text := "Hello"; ins_link := None |};
                       {| ins_text := "site";
                          ins_link := Some "https://example.org" |} ];
                     [ {| ins_text := "Bye"; ins_link := None |} ] ] |}.

(** A doc of one block holding the single operation [x]. *)
Definition tiny_content : string :=
  "{" ++ quoted "deltaFormat" ++ ": [{" ++ quoted "insert" ++ ": "
  ++ quoted "x" ++ "}]}".

Definition tiny_loads (s : string) : result value :=
  if String.eqb s tiny_content
  then Ok (VDict [("deltaFormat", VList [VDict [("insert", VStr "x")]])])
  else Raise (ExternalError "JSONDecodeError").

Definition tiny_doc_response : value :=
  VDict [("data",
          VDict [("docs",
                  VList [VDict [("name", VStr "T");
                                ("blocks", VList [VDict [("content", VStr tiny_content)]]);
                                ("created_by", VDict [("name", VStr "Ada")])]])])].

Fixpoint dict_get_str (k : string) (kvs : list (string * string)) : option string :=
  match kvs with
  | [] => None
  | (k', v) :: rest => if String.eqb k k' then Some v else dict_get_str k rest
  end.

(** A server that answers every request with [r]. *)
Definition answering (r : value) (loads : string -> result value) : World :=
  {| post_json := fun _ => Ok r;
     json_loads := loads;
     py_repr := fun _ => "" |}.

(** A server that knows board 12345 and doc 777 and answers the query it
    is sent. *)
Definition monday (rq : Request) : result value :=
  match dict_get_str "query" (req_json rq) with
  | Some q =>
      if String.eqb q (MondayReader.board_query 12345) then Ok sample_board_response
      else if String.eqb q (MondayReader_1.board_query 12345) then Ok sample_board_response
      else if String.eqb q (MondayReader.doc_query 777) then Ok sample_doc_response
      else Ok (VDict [("errors", VList [VStr "not found"])])
  | None => Raise (ExternalError "HTTPError")
  end.

Definition monday_world : World :=
  {| post_json := monday; json_loads := sample_loads; py_repr := fun _ => "" |}.

(** ** Responses as the reader accepts them

    [list(...)] and [for] take any iterable, and [in] any container: the
    views below are the ones of the section on well-formed responses with
    these two liberties granted, which makes them exact. *)

Definition is_item_iter (item : value) (it : Item) : Prop :=
  getitem item "id" = Ok (item_id it) /\
  getitem item "name" = Ok (item_name it) /\
  exists cvs cvl,
    getitem item "column_values" = Ok cvs /\
    py_list cvs = Ok cvl /\
    Forall2 is_column cvl (item_columns it).

Definition is_insert_iter (op : value) (i : Insert) : Prop :=
  getitem op "insert" = Ok (VStr (ins_text i)) /\
  match ins_link i with
  | Some l =>
      exists a, getitem op "attributes" = Ok a /\ getitem a "link" = Ok (VStr l)
  | None =>
      absent op "attributes" \/
      exists a, getitem op "attributes" = Ok a /\ py_in "link" a = Ok false
  end.

Definition is_block_iter (W : World) (block : value) (ops : list Insert) : Prop :=
  exists s loaded delta arr,
    getitem block "content" = Ok (VStr s) /\
    json_loads W s = Ok loaded /\
    getitem loaded "deltaFormat" = Ok delta /\
    py_list delta = Ok arr /\
    Forall2 is_insert_iter arr ops.

Definition is_doc_iter (W : World) (data : value) (d : Doc) : Prop :=
  (exists blocks blocks_array,
     getitem data "blocks" = Ok blocks /\
     py_list blocks = Ok blocks_array /\
     Forall2 (is_block_iter W) blocks_array (doc_blocks d)) /\
  getitem data "name" = Ok (doc_name d) /\
  exists c, getitem data "created_by" = Ok c /\
            getitem c "name" = Ok (doc_creator d).

(** ** Kinds of exceptions *)

(** The exceptions the subscripts, iterations and additions of the reader
    raise by themselves. *)
Definition builtin_error (e : exn) : Prop :=
  match e with
  | KeyError _ | IndexError | TypeError => True
  | _ => False
  end.

Definition raises_only {A : Type} (P : exn -> Prop) (c : result A) : Prop :=
  forall e, c = Raise e -> P e.

Definition is_VStr (v : value) : bool :=
  match v with
  | VStr _ => true
  | _ => false
  end.

(** The integer an identifier holds ([0] for [None], which is never
    formatted). *)
Definition id_int (i : option Z) : Z :=
  match i with
  | Some z => z
  | None => 0%Z
  end.

(** A block whose second operation embeds an image instead of text. *)
Definition embed_content : string :=
  "{" ++ quoted "deltaFormat" ++ ": [{" ++ quoted "insert" ++ ": "
  ++ quoted "Hello" ++ "}, {" ++ quoted "insert" ++ ": {" ++ quoted "image"
  ++ ": " ++ quoted "https://example.org/a.png" ++ "}}]}".

Definition embed_op : value :=
  VDict [("insert", VDict [("image", VStr "https://example.org/a.png")])].

Definition embed_loads (s : string) : result value :=
  if String.eqb s embed_content
  then Ok (VDict [("deltaFormat",
                   VList [VDict [("insert", VStr "Hello")]; embed_op])])
  else sample_loads s.

Definition embed_block : value :=
  VDict [("id", VStr "b3"); ("type", VStr "image");
         ("content", VStr embed_content)].

(** A block whose content is not JSON. *)
Definition garbled_block : value :=
  VDict [("id", VStr "b4"); ("type", VStr "normal text");
         ("content", VStr "{oops")].

Definition doc_response_of (blocks : list value) : value :=
  VDict [("data",
          VDict [("docs",
                  VList [VDict [("name", VStr "Notes");
                                ("blocks", VList blocks);
                                ("created_by", VDict [("name", VStr "Ada")])]])])].

Definition sample_block_1 : value :=
  VDict [("id", VStr "b1"); ("type", VStr "normal text");
         ("content", VStr sample_content_1)].

(** A server that is down. *)
Definition unreachable : World :=
  {| post_json := fun _ => Raise (ExternalError "ConnectionError");
     json_loads := sample_loads;
     py_repr := fun _ => "" |}.

(** [block]'s content is a string that [json.loads] turns into an object
    whose [deltaFormat] is the list [arr]. *)
Definition delta_of (W : World) (block : value) (arr : list value) : Prop :=
  exists s loaded,
    getitem block "content" = Ok (VStr s) /\
    json_loads W s = Ok loaded /\
    getitem loaded "deltaFormat" = Ok (VList arr).

(** The body of the loop of [_read_block] (lines 133-137). *)
Definition read_step (block_text : string) (insert : value) : result string :=
  text <- MondayReader.insert_text insert ;;
  t <- str_add (VStr block_text) text ;;
  str_add (VStr t) (VStr (" " ++ TAB)).

(** Two blocks holding the first and the second operation of the first
    sample block. *)
Definition half_content_1 : string :=
  "{" ++ quoted "deltaFormat" ++ ": [{" ++ quoted "insert" ++ ": "
  ++ quoted "Hello" ++ "}]}".

Definition half_content_2 : string :=
  "{" ++ quoted "deltaFormat" ++ ": [{" ++ quoted "insert" ++ ": " ++ quoted "site"
  ++ ", " ++ quoted "attributes" ++ ": {" ++ quoted "link" ++ ": "
  ++ quoted "https://example.org" ++ "}}]}".

Definition half_loads (s : string) : result value :=
  if String.eqb s half_content_1
  then Ok (VDict [("deltaFormat", VList [VDict [("insert", VStr "Hello")]])])
  else if String.eqb s half_content_2
  then Ok (VDict [("deltaFormat", VList [sample_op_link])])
  else sample_loads s.

Definition half_world : World :=
  {| post_json := fun _ => Raise (ExternalError "ConnectionError");
     json_loads := half_loads;
     py_repr := fun _ => "" |}.

Definition embed_world : World :=
  {| post_json := fun _ => Ok (doc_response_of [sample_block_1; embed_block]);
     json_loads := embed_loads;
     py_repr := fun _ => "" |}.

(** The exceptions the outside world raises. *)
Definition http_raises (W : World) (e : exn) : Prop :=
  exists rq, post_json W rq = Raise e.

Definition json_raises (W : World) (e : exn) : Prop :=
  exists s, json_loads W s = Raise e.

(** An identifier that is formatted into a query (a truthy one) must fit
    the limit on integer-to-string conversion. *)
Definition formattable (i : option Z) : bool :=
  negb (id_truthy i) || fits (id_int i).

(** The integer written as a one followed by 4300 zeros: the smallest
    positive integer with 4301 digits. *)
Definition huge_digits : Decimal.uint :=
  Decimal.D1 (Nat.iter 4300 Decimal.D0 Decimal.Nil).

Definition huge_id : Z := Z.of_int (Decimal.Pos huge_digits).

(** The one block of [tiny_doc_response]. *)
Definition tiny_block : value := VDict [("content", VStr tiny_content)].

(** ** Properties of the monad and of the loops *)

Lemma bind_Ok_inv {A B : Type} (c : result A) (k : A -> result B) (b : B) :
  bind c k = Ok b -> exists a, c = Ok a /\ k a = Ok b.
Proof.
  destruct c as [a | e]; simpl; intros H.
  - exists a; split; [reflexivity | exact H].
  - discriminate H.
Qed.

Lemma mapM_Forall2 {A B : Type} (f : A -> result B) (l : list A) (l' : list B) :
  mapM f l = Ok l' <-> Forall2 (fun a b => f a = Ok b) l l'.
Proof.
  revert l'; induction l as [| a l IH]; intros l'; simpl; split; intros H.
  - injection H as <-; constructor.
  - inversion H; reflexivity.
  - apply bind_Ok_inv in H as (b & Hb & H).
    apply bind_Ok_inv in H as (bs & Hbs & H).
    injection H as <-.
    constructor; [exact Hb | apply IH; exact Hbs].
  - inversion H as [| a' b l0 bs Hb Hbs]; subst.
    rewrite Hb; simpl.
    apply IH in Hbs; rewrite Hbs; reflexivity.
Qed.

Lemma foldM_ext {A S : Type} (f g : S -> A -> result S) (l : list A) (s : S) :
  (forall s a, f s a = g s a) -> foldM f l s = foldM g l s.
Proof.
  intros H; revert s; induction l as [| a l IH]; intros s; simpl.
  - reflexivity.
  - rewrite H; destruct (g s a); simpl; [apply IH | reflexivity].
Qed.

(** A loop that appends one element per iteration builds the list [mapM]
    builds. *)
Lemma foldM_append {A B : Type} (g : A -> result B) (l : list A) (acc : list B) :
  foldM (fun res a => d <- g a ;; Ok (res ++ [d])%list) l acc
  = (ds <- mapM g l ;; Ok (acc ++ ds)%list).
Proof.
  revert acc; induction l as [| a l IH]; intros acc; simpl.
  - rewrite app_nil_r; reflexivity.
  - destruct (g a) as [d | e]; simpl; [| reflexivity].
    rewrite IH.
    destruct (mapM g l) as [ds | e]; simpl; [| reflexivity].
    rewrite <- app_assoc; reflexivity.
Qed.

Lemma append_assoc (a b c : string) : (a ++ b) ++ c = a ++ (b ++ c).
Proof. induction a as [| x a IH]; simpl; [reflexivity | rewrite IH; reflexivity]. Qed.

Lemma append_nil_r (a : string) : a ++ "" = a.
Proof. induction a as [| x a IH]; simpl; [reflexivity | rewrite IH; reflexivity]. Qed.

Lemma concat_empty_cons (x : string) (xs : list string) :
  String.concat "" (x :: xs) = x ++ String.concat "" xs.
Proof.
  destruct xs as [| y ys]; simpl.
  - rewrite append_nil_r; reflexivity.
  - reflexivity.
Qed.

(** On a string, truthy means non-empty. *)
Lemma truthy_str (s : string) : truthy (VStr s) = true <-> s <> "".
Proof.
  simpl; destruct (String.eqb_spec s ""); simpl; split; congruence.
Qed.

(** ** The board path *)

Section BoardPath.

Variable W : World.

Lemma parsed_column_title (c : Column) :
  getitem (parsed_column c) "title" = Ok (col_title c).
Proof. reflexivity. Qed.

Lemma parsed_column_value (c : Column) :
  getitem (parsed_column c) "value" = Ok (col_value c).
Proof. reflexivity. Qed.

Lemma parse_item_values_ok (cv : value) (c : Column) :
  is_column cv c -> MondayReader._parse_item_values cv = Ok (parsed_column c).
Proof.
  intros [Ht Hv]; unfold MondayReader._parse_item_values.
  rewrite Ht; simpl; rewrite Hv; reflexivity.
Qed.

Lemma parse_columns_ok (cvs : list value) (cols : list Column) :
  Forall2 is_column cvs cols ->
  mapM MondayReader._parse_item_values cvs = Ok (map parsed_column cols).
Proof.
  intros H; apply mapM_Forall2.
  induction H as [| cv c cvs cols Hc _ IH]; simpl; constructor.
  - apply parse_item_values_ok; exact Hc.
  - exact IH.
Qed.

Lemma parse_data_ok (item : value) (it : Item) :
  is_item item it -> MondayReader._parse_data item = Ok (parsed_item it).
Proof.
  intros (Hid & Hname & cvs & Hcvs & Hcols); unfold MondayReader._parse_data.
  rewrite Hid; simpl; rewrite Hname; simpl; rewrite Hcvs; simpl.
  rewrite (parse_columns_ok _ _ Hcols); reflexivity.
Qed.

Lemma parse_items_ok (items : list value) (its : list Item) :
  Forall2 is_item items its ->
  mapM MondayReader._parse_data items = Ok (map parsed_item its).
Proof.
  intros H; apply mapM_Forall2.
  induction H as [| item it items its Hi _ IH]; simpl; constructor.
  - apply parse_data_ok; exact Hi.
  - exact IH.
Qed.

Lemma columns_loop (cols : list Column) (acc : string) :
  foldM (fun text item_value =>
           v <- getitem item_value "value" ;;
           if truthy v then
             title <- getitem item_value "title" ;;
             v' <- getitem item_value "value" ;;
             Ok (text ++ ", " ++ format_value W title ++ ": " ++ format_value W v')
           else Ok text)
        (map parsed_column cols) acc
  = Ok (acc ++ String.concat "" (map (column_text W) (filter nonempty cols))).
Proof.
  revert acc; induction cols as [| c cols IH]; intros acc.
  - simpl; rewrite append_nil_r; reflexivity.
  - cbn [map foldM filter].
    rewrite parsed_column_value; cbn [bind].
    change (nonempty c) with (truthy (col_value c)).
    destruct (truthy (col_value c)) eqn:Ht.
    + rewrite parsed_column_title; cbn [bind].
      rewrite IH. cbn [map]. rewrite concat_empty_cons.
      unfold column_text at 2. rewrite !append_assoc. reflexivity.
    + apply IH.
Qed.

Lemma item_text_parsed (it : Item) :
  MondayReader.item_text W (parsed_item it) = Ok (board_item_text W it).
Proof.
  unfold MondayReader.item_text, parsed_item, board_item_text.
  cbn [getitem dict_get String.eqb Ascii.eqb Bool.eqb bind py_list].
  apply columns_loop.
Qed.

Lemma documents_of_parsed (board_id : option Z) (its : list Item) :
  mapM (fun item =>
          text <- MondayReader.item_text W item ;;
          id <- getitem item "id" ;;
          Ok {| text := text;
                extra_info := [("board_id", id_value board_id); ("item_id", id)] |})
       (map parsed_item its)
  = Ok (map (board_document W board_id) its).
Proof.
  induction its as [| it its IH]; [reflexivity |].
  cbn [map mapM]. rewrite item_text_parsed. cbn [bind].
  unfold parsed_item at 1. cbn [getitem dict_get String.eqb Ascii.eqb Bool.eqb bind].
  rewrite IH. reflexivity.
Qed.

Lemma load_data_board_unfold (board_id : option Z) (r : value) :
  MondayReader.load_data_board W board_id r
  = (items <- board_items r ;;
     parsed_items <- mapM MondayReader._parse_data items ;;
     mapM (fun item =>
             text <- MondayReader.item_text W item ;;
             id <- getitem item "id" ;;
             Ok {| text := text;
                   extra_info := [("board_id", id_value board_id);
                                  ("item_id", id)] |})
          parsed_items).
Proof.
  unfold MondayReader.load_data_board, board_items, first_board.
  destruct (getitem r "data") as [d | e]; [| reflexivity]; cbn [bind].
  destruct (getitem d "boards") as [bs | e]; [| reflexivity]; cbn [bind].
  destruct (getitem0 bs) as [data | e]; [| reflexivity]; cbn [bind].
  destruct (getitem data "items") as [items | e]; [| reflexivity]; cbn [bind].
  destruct (py_list items) as [l | e]; [| reflexivity]; cbn [bind].
  destruct (mapM MondayReader._parse_data l) as [ps | e]; [| reflexivity]; cbn [bind].
  set (g := fun item =>
              text <- MondayReader.item_text W item ;;
              id <- getitem item "id" ;;
              Ok {| text := text;
                    extra_info := [("board_id", id_value board_id);
                                   ("item_id", id)] |}).
  rewrite (foldM_ext _ (fun res a => d <- g a ;; Ok (res ++ [d])%list)).
  - rewrite foldM_append. destruct (mapM g ps); reflexivity.
  - intros res item; unfold g.
    destruct (MondayReader.item_text W item) as [t | e]; [| reflexivity]; cbn [bind].
    destruct (getitem item "id") as [i | e]; reflexivity.
Qed.

Lemma load_data_board_ok (board_id : option Z) (r data : value)
      (items : list value) (its : list Item) :
  first_board r = Ok data ->
  getitem data "items" = Ok (VList items) ->
  Forall2 is_item items its ->
  MondayReader.load_data_board W board_id r
  = Ok (map (board_document W board_id) its).
Proof.
  intros Hb Hi Hits.
  rewrite load_data_board_unfold; unfold board_items.
  rewrite Hb; cbn [bind]; rewrite Hi; cbn [bind py_list].
  rewrite (parse_items_ok _ _ Hits); cbn [bind].
  rewrite documents_of_parsed; reflexivity.
Qed.

End BoardPath.

(** ** The doc path *)

Section DocPath.

Variable W : World.

Lemma present_py_in (v x : value) (k : string) :
  getitem v k = Ok x -> py_in k v = Ok true.
Proof.
  destruct v; simpl; try discriminate.
  unfold dict_has; destruct (dict_get k kvs); [reflexivity | discriminate].
Qed.

Lemma absent_py_in (v : value) (k : string) :
  absent v k -> py_in k v = Ok false.
Proof.
  unfold absent; destruct v; simpl; try discriminate.
  unfold dict_has; destruct (dict_get k kvs); [discriminate | reflexivity].
Qed.

Lemma insert_text_ok (op : value) (i : Insert) :
  is_insert op i -> MondayReader.insert_text op = Ok (VStr (op_text i)).
Proof.
  intros [Hins Hlink]; unfold MondayReader.insert_text, op_text.
  rewrite Hins; cbn [bind].
  destruct (ins_link i) as [l |].
  - destruct Hlink as (a & Ha & Hl).
    rewrite (present_py_in _ _ _ Ha); cbn [bind].
    rewrite Ha; cbn [bind].
    rewrite (present_py_in _ _ _ Hl); cbn [bind str_add].
    rewrite Hl; cbn [bind str_add].
    rewrite append_assoc; reflexivity.
  - destruct Hlink as [Habs | (a & Ha & Habs)].
    + rewrite (absent_py_in _ _ Habs); reflexivity.
    + rewrite (present_py_in _ _ _ Ha); cbn [bind].
      rewrite Ha; cbn [bind].
      rewrite (absent_py_in _ _ Habs); reflexivity.
Qed.

Lemma inserts_loop (arr : list value) (ops : list Insert) (acc : string) :
  Forall2 is_insert arr ops ->
  foldM (fun block_text insert =>
           text <- MondayReader.insert_text insert ;;
           t <- str_add (VStr block_text) text ;;
           str_add (VStr t) (VStr (" " ++ TAB)))
        arr acc
  = Ok (acc ++ block_text ops).
Proof.
  intros H; revert acc; induction H as [| op i arr ops Hop _ IH]; intros acc.
  - simpl; rewrite append_nil_r; reflexivity.
  - cbn [foldM]. rewrite (insert_text_ok _ _ Hop); cbn [bind str_add].
    rewrite IH. unfold block_text; cbn [map]. rewrite concat_empty_cons.
    rewrite !append_assoc. reflexivity.
Qed.

Lemma read_block_ok (block : value) (ops : list Insert) :
  is_block W block ops -> MondayReader._read_block W block = Ok (block_text ops).
Proof.
  intros (s & loaded & arr & Hc & Hl & Hd & Hops).
  unfold MondayReader._read_block.
  rewrite Hc; cbn [bind]; rewrite Hl; cbn [bind]; rewrite Hd; cbn [bind py_list].
  rewrite (inserts_loop _ _ _ Hops). reflexivity.
Qed.

Lemma read_blocks_ok (blocks : list value) (bl : list (list Insert)) :
  Forall2 (is_block W) blocks bl ->
  mapM (MondayReader._read_block W) blocks = Ok (map block_text bl).
Proof.
  intros H; apply mapM_Forall2.
  induction H as [| b ops blocks bl Hb _ IH]; simpl; constructor.
  - apply read_block_ok; exact Hb.
  - exact IH.
Qed.

Lemma load_data_doc_unfold (doc_id : option Z) (r : value) :
  MondayReader.load_data_doc W doc_id r
  = (data <- first_doc r ;;
     blocks <- getitem data "blocks" ;;
     blocks_array <- py_list blocks ;;
     lines_arr <- mapM (MondayReader._read_block W) blocks_array ;;
     doc_name <- getitem data "name" ;;
     creator <- getitem data "created_by" ;;
     creator_name <- getitem creator "name" ;;
     Ok [ {| text := String.concat (" " ++ LF) lines_arr;
             extra_info := [("doc_id", id_value doc_id);
                            ("doc_name", doc_name);
                            ("created_by", creator_name)] |} ]).
Proof.
  unfold MondayReader.load_data_doc, first_doc.
  destruct (getitem r "data") as [d | e]; [| reflexivity]; cbn [bind].
  destruct (getitem d "docs") as [ds | e]; reflexivity.
Qed.

Lemma load_data_doc_ok (doc_id : option Z) (r data : value) (d : Doc) :
  first_doc r = Ok data ->
  is_doc W data d ->
  MondayReader.load_data_doc W doc_id r = Ok [doc_document doc_id d].
Proof.
  intros Hd ((blocks & Hb & Hbl) & Hn & c & Hc & Hcn).
  rewrite load_data_doc_unfold.
  rewrite Hd; cbn [bind]; rewrite Hb; cbn [bind py_list].
  rewrite (read_blocks_ok _ _ Hbl); cbn [bind].
  rewrite Hn; cbn [bind]; rewrite Hc; cbn [bind]; rewrite Hcn; cbn [bind].
  reflexivity.
Qed.

End DocPath.

(** ** Dispatch *)

Section Dispatch.

Variable W : World.

Lemma truthy_id (z : Z) : id_truthy (Some z) = true <-> z <> 0%Z.
Proof.
  unfold id_truthy; simpl.
  destruct (Z.eqb_spec z 0); simpl; split; congruence.
Qed.

(** The request [_perform_request] builds, case by case: an identifier
    is formatted when it is truthy, the board's before the doc's, and the
    doc query replaces the board query. *)
Lemma request_table (self : reader) (board_id doc_id : option Z) :
  MondayReader.request self board_id doc_id
  = if id_truthy board_id && negb (fits (id_int board_id)) then Raise ValueError
    else if id_truthy doc_id then
      if fits (id_int doc_id)
      then Ok {| req_url := api_url self;
                 req_json := [("query", MondayReader.doc_query (id_int doc_id))];
                 req_headers := [("Authorization", api_key self)] |}
      else Raise ValueError
    else if id_truthy board_id then
      Ok {| req_url := api_url self;
            req_json := [("query", MondayReader.board_query (id_int board_id))];
            req_headers := [("Authorization", api_key self)] |}
    else Raise (UnboundLocalError "query").
Proof.
  unfold MondayReader.request, MondayReader.query_after_board_test,
    MondayReader.query_after_doc_test, percent_d.
  destruct board_id as [b |], doc_id as [d |]; cbn [id_int];
    change (id_truthy None) with false; cbn [andb bind];
    try destruct (id_truthy (Some b)); try destruct (id_truthy (Some d));
    cbn [andb negb bind];
    try destruct (fits b); try destruct (fits d); reflexivity.
Qed.

(** With a non-zero [board_id] the response goes to the board branch,
    whatever [doc_id] is. *)
Lemma load_data_board_mode (self : reader) (b : Z) (doc_id : option Z) :
  b <> 0%Z ->
  MondayReader.load_data W self (Some b) doc_id
  = (r <- MondayReader._perform_request W self (Some b) doc_id ;;
     MondayReader.load_data_board W (Some b) r).
Proof.
  intros Hb; apply truthy_id in Hb.
  unfold MondayReader.load_data; cbn [is_not_None orb negb].
  rewrite Hb; reflexivity.
Qed.

(** With a falsy [board_id] and a non-zero [doc_id] it goes to the doc
    branch. *)
Lemma load_data_doc_mode (self : reader) (board_id : option Z) (d : Z) :
  id_truthy board_id = false ->
  d <> 0%Z ->
  MondayReader.load_data W self board_id (Some d)
  = (r <- MondayReader._perform_request W self board_id (Some d) ;;
     MondayReader.load_data_doc W (Some d) r).
Proof.
  intros Hb Hd; apply truthy_id in Hd.
  unfold MondayReader.load_data.
  replace (negb (is_not_None board_id || is_not_None (Some d))) with false
    by (destruct board_id; reflexivity).
  rewrite Hb, Hd; reflexivity.
Qed.

End Dispatch.

(** ** No assertion error past the assertion *)

Lemma clean_Ok {A : Type} (a : A) : clean (Ok a).
Proof. intros msg; discriminate. Qed.

Lemma clean_bind {A B : Type} (c : result A) (k : A -> result B) :
  clean c -> (forall a, clean (k a)) -> clean (bind c k).
Proof.
  intros Hc Hk msg; destruct c as [a | e]; simpl.
  - apply Hk.
  - intros H; injection H as ->; apply (Hc msg); reflexivity.
Qed.

Lemma clean_mapM {A B : Type} (f : A -> result B) (l : list A) :
  (forall a, clean (f a)) -> clean (mapM f l).
Proof.
  intros Hf; induction l as [| a l IH]; simpl.
  - apply clean_Ok.
  - apply clean_bind; [apply Hf | intros b].
    apply clean_bind; [exact IH | intros bs; apply clean_Ok].
Qed.

Lemma clean_foldM {A S : Type} (body : S -> A -> result S) (l : list A) (s : S) :
  (forall s a, clean (body s a)) -> clean (foldM body l s).
Proof.
  intros Hb; revert s; induction l as [| a l IH]; intros s; simpl.
  - apply clean_Ok.
  - apply clean_bind; [apply Hb | exact IH].
Qed.

Lemma clean_getitem (v : value) (k : string) : clean (getitem v k).
Proof.
  intros msg; destruct v; simpl; try discriminate.
  destruct (dict_get k kvs); discriminate.
Qed.

Lemma clean_getitem0 (v : value) : clean (getitem0 v).
Proof.
  intros msg; destruct v as [| | | s | l |]; simpl; try discriminate.
  - destruct s; discriminate.
  - destruct l; discriminate.
Qed.

Lemma clean_py_list (v : value) : clean (py_list v).
Proof. intros msg; destruct v; discriminate. Qed.

Lemma clean_py_in (k : string) (v : value) : clean (py_in k v).
Proof. intros msg; destruct v; discriminate. Qed.

Lemma clean_str_add (a b : value) : clean (str_add a b).
Proof. intros msg; destruct a, b; discriminate. Qed.

Ltac clean_step :=
  first
    [ match goal with
      | H : forall x, clean _ |- _ => apply H
      end
    | apply clean_Ok
    | apply clean_getitem
    | apply clean_getitem0
    | apply clean_py_list
    | apply clean_py_in
    | apply clean_str_add
    | assumption
    | apply clean_bind; [| intros ?]
    | apply clean_mapM; intros ?
    | apply clean_foldM; intros ? ?
    | match goal with
      | |- clean (if ?c then _ else _) => destruct c
      end ].

Ltac clean_tac := repeat clean_step.

Lemma clean_load_data_board (W : World) (board_id : option Z) (r : value) :
  clean (MondayReader.load_data_board W board_id r).
Proof.
  unfold MondayReader.load_data_board, MondayReader.item_text; clean_tac.
Qed.

Lemma clean_read_block (W : World) (block : value) :
  quiet W -> clean (MondayReader._read_block W block).
Proof.
  intros [_ Hl].
  unfold MondayReader._read_block, MondayReader.insert_text; clean_tac.
  destruct a; solve [apply Hl | intros msg; discriminate].
Qed.

Lemma clean_load_data_doc (W : World) (doc_id : option Z) (r : value) :
  quiet W -> clean (MondayReader.load_data_doc W doc_id r).
Proof.
  intros HW.
  pose proof (fun block => clean_read_block W block HW) as Hblock.
  unfold MondayReader.load_data_doc; clean_tac.
Qed.

Lemma clean_perform_request (W : World) (self : reader) (b d : option Z) :
  quiet W -> clean (MondayReader._perform_request W self b d).
Proof.
  intros [Hp _].
  unfold MondayReader._perform_request; rewrite request_table.
  destruct (id_truthy b && negb (fits (id_int b))); [intros msg; discriminate |].
  destruct (id_truthy d).
  - destruct (fits (id_int d)); [apply Hp | intros msg; discriminate].
  - destruct (id_truthy b); [apply Hp | intros msg; discriminate].
Qed.

(** Past the assertion, [load_data] is clean in a quiet world. *)
Lemma clean_after_assert (W : World) (self : reader) (b d : option Z) :
  quiet W ->
  is_not_None b || is_not_None d = true ->
  clean (MondayReader.load_data W self b d).
Proof.
  intros HW Hpre; unfold MondayReader.load_data; rewrite Hpre; cbn [negb].
  apply clean_bind; [apply clean_perform_request; exact HW | intros r].
  destruct (id_truthy b); [apply clean_load_data_board |].
  destruct (id_truthy d); [apply clean_load_data_doc; exact HW |].
  intros msg; discriminate.
Qed.

(** ** A missing key ends the call *)

Lemma mapM_stops {A B : Type} (f : A -> result B) (pre post : list A)
      (bs : list B) (bad : A) (e : exn) :
  Forall2 (fun a b => f a = Ok b) pre bs ->
  f bad = Raise e ->
  mapM f (pre ++ bad :: post) = Raise e.
Proof.
  intros Hpre Hbad; induction Hpre as [| a b pre bs Ha _ IH]; simpl.
  - rewrite Hbad; reflexivity.
  - rewrite Ha; simpl; rewrite IH; reflexivity.
Qed.

Lemma foldM_app {A S : Type} (body : S -> A -> result S) (l1 l2 : list A) (s : S) :
  foldM body (l1 ++ l2) s = (s' <- foldM body l1 s ;; foldM body l2 s').
Proof.
  revert s; induction l1 as [| a l1 IH]; intros s; simpl.
  - reflexivity.
  - destruct (body s a) as [s' |]; simpl; [apply IH | reflexivity].
Qed.

Section MissingKeys.

Variable W : World.

Lemma column_lacks_raises (cv : value) (k : string) :
  column_lacks cv k ->
  MondayReader._parse_item_values cv = Raise (KeyError (VStr k)).
Proof.
  unfold MondayReader._parse_item_values, absent.
  intros [cv' H | cv' t Ht H].
  - rewrite H; reflexivity.
  - rewrite Ht; cbn [bind]; rewrite H; reflexivity.
Qed.

Lemma columns_Forall2 (cvs : list value) (cols : list Column) :
  Forall2 is_column cvs cols ->
  Forall2 (fun cv p => MondayReader._parse_item_values cv = Ok p)
          cvs (map parsed_column cols).
Proof.
  intros H; apply mapM_Forall2, parse_columns_ok; exact H.
Qed.

Lemma item_lacks_raises (item : value) (k : string) :
  item_lacks item k -> MondayReader._parse_data item = Raise (KeyError (VStr k)).
Proof.
  unfold MondayReader._parse_data, absent.
  intros [it H | it i Hi H | it i n Hi Hn H | it i n pre bad post cols k' Hi Hn Hc Hpre Hbad].
  - rewrite H; reflexivity.
  - rewrite Hi; cbn [bind]; rewrite H; reflexivity.
  - rewrite Hi; cbn [bind]; rewrite Hn; cbn [bind]; rewrite H; reflexivity.
  - rewrite Hi; cbn [bind]; rewrite Hn; cbn [bind]; rewrite Hc; cbn [bind py_list].
    rewrite (mapM_stops _ _ _ _ _ _ (columns_Forall2 _ _ Hpre)
                        (column_lacks_raises _ _ Hbad)).
    reflexivity.
Qed.

Lemma items_Forall2 (items : list value) (its : list Item) :
  Forall2 is_item items its ->
  Forall2 (fun item p => MondayReader._parse_data item = Ok p)
          items (map parsed_item its).
Proof.
  intros H; apply mapM_Forall2, parse_items_ok; exact H.
Qed.

Lemma board_lacks_raises (board_id : option Z) (r : value) (k : string) :
  board_lacks r k ->
  MondayReader.load_data_board W board_id r = Raise (KeyError (VStr k)).
Proof.
  rewrite load_data_board_unfold; unfold board_items, absent.
  intros [r' d Hd H | r' data Hb H | r' data pre bad post its k' Hb Hi Hpre Hbad].
  - unfold first_board; rewrite Hd; cbn [bind]; rewrite H; reflexivity.
  - rewrite Hb; cbn [bind]; rewrite H; reflexivity.
  - rewrite Hb; cbn [bind]; rewrite Hi; cbn [bind py_list].
    rewrite (mapM_stops _ _ _ _ _ _ (items_Forall2 _ _ Hpre)
                        (item_lacks_raises _ _ Hbad)).
    reflexivity.
Qed.

Lemma block_lacks_raises (block : value) (k : string) :
  block_lacks W block k ->
  MondayReader._read_block W block = Raise (KeyError (VStr k)).
Proof.
  unfold MondayReader._read_block, absent.
  intros [b H | b s loaded Hc Hl H | b s loaded pre bad post ops Hc Hl Hd Hpre H].
  - rewrite H; reflexivity.
  - rewrite Hc; cbn [bind]; rewrite Hl; cbn [bind]; rewrite H; reflexivity.
  - rewrite Hc; cbn [bind]; rewrite Hl; cbn [bind]; rewrite Hd; cbn [bind py_list].
    rewrite foldM_app, (inserts_loop _ _ _ Hpre); cbn [bind foldM].
    unfold MondayReader.insert_text; rewrite H; reflexivity.
Qed.

Lemma blocks_Forall2 (blocks : list value) (bl : list (list Insert)) :
  Forall2 (is_block W) blocks bl ->
  Forall2 (fun b t => MondayReader._read_block W b = Ok t)
          blocks (map block_text bl).
Proof.
  intros H; apply mapM_Forall2, read_blocks_ok; exact H.
Qed.

Lemma doc_lacks_raises (doc_id : option Z) (r : value) (k : string) :
  doc_lacks W r k ->
  MondayReader.load_data_doc W doc_id r = Raise (KeyError (VStr k)).
Proof.
  rewrite load_data_doc_unfold; unfold absent.
  intros [r' d Hd H | r' data Hf H | r' data pre bad post bl k' Hf Hb Hpre Hbad
         | r' data blocks bl Hf Hb Hbl H | r' data blocks bl n Hf Hb Hbl Hn H
         | r' data blocks bl n c Hf Hb Hbl Hn Hc H].
  - unfold first_doc; rewrite Hd; cbn [bind]; rewrite H; reflexivity.
  - rewrite Hf; cbn [bind]; rewrite H; reflexivity.
  - rewrite Hf; cbn [bind]; rewrite Hb; cbn [bind py_list].
    rewrite (mapM_stops _ _ _ _ _ _ (blocks_Forall2 _ _ Hpre)
                        (block_lacks_raises _ _ Hbad)).
    reflexivity.
  - rewrite Hf; cbn [bind]; rewrite Hb; cbn [bind py_list].
    rewrite (read_blocks_ok W _ _ Hbl); cbn [bind]; rewrite H; reflexivity.
  - rewrite Hf; cbn [bind]; rewrite Hb; cbn [bind py_list].
    rewrite (read_blocks_ok W _ _ Hbl); cbn [bind]; rewrite Hn; cbn [bind].
    rewrite H; reflexivity.
  - rewrite Hf; cbn [bind]; rewrite Hb; cbn [bind py_list].
    rewrite (read_blocks_ok W _ _ Hbl); cbn [bind]; rewrite Hn; cbn [bind].
    rewrite Hc; cbn [bind]; rewrite H; reflexivity.
Qed.

(** Once the request has been answered, the identifiers have passed the
    assertion and one of them is truthy. *)
Lemma load_data_of_response (self : reader) (b d : option Z) (r : value) :
  MondayReader._perform_request W self b d = Ok r ->
  MondayReader.load_data W self b d
  = (if id_truthy b then MondayReader.load_data_board W b r
     else MondayReader.load_data_doc W d r)
  /\ (id_truthy b = false -> id_truthy d = true).
Proof.
  intros Hr; unfold MondayReader.load_data; rewrite Hr; cbn [bind].
  unfold MondayReader._perform_request in Hr; rewrite request_table in Hr.
  destruct b as [b |], d as [d |]; cbn [is_not_None orb negb];
    change (id_truthy None) with false in *;
    try destruct (id_truthy (Some b)) eqn:Hb;
    try destruct (id_truthy (Some d)) eqn:Hd;
    cbn [andb] in Hr;
    try discriminate Hr; auto;
    destruct (negb (fits (id_int (Some b)))); discriminate Hr.
Qed.

End MissingKeys.

(** ** What a returned list says about the response *)

Section Returned.

Variable W : World.

Lemma Forall2_compose {A B C : Type} (P : A -> B -> Prop) (Q : B -> C -> Prop)
      (R : A -> C -> Prop) (l1 : list A) (l2 : list B) (l3 : list C) :
  (forall a b c, P a b -> Q b c -> R a c) ->
  Forall2 P l1 l2 -> Forall2 Q l2 l3 -> Forall2 R l1 l3.
Proof.
  intros HR H12; revert l3; induction H12 as [| a b l1 l2 Hab _ IH]; intros l3 H23.
  - inversion H23; constructor.
  - inversion H23 as [| b' c l2' l3' Hbc Hrest]; subst.
    constructor; [eapply HR; eassumption | apply IH; exact Hrest].
Qed.

Lemma parse_data_keeps_id (item p : value) :
  MondayReader._parse_data item = Ok p ->
  exists id, getitem item "id" = Ok id /\ getitem p "id" = Ok id.
Proof.
  unfold MondayReader._parse_data; intros H.
  apply bind_Ok_inv in H as (id & Hid & H).
  apply bind_Ok_inv in H as (name & _ & H).
  apply bind_Ok_inv in H as (cvs & _ & H).
  apply bind_Ok_inv in H as (cvl & _ & H).
  apply bind_Ok_inv in H as (values & _ & H).
  injection H as <-.
  exists id; split; [exact Hid | reflexivity].
Qed.

Lemma load_data_board_returns (board_id : option Z) (r : value)
      (docs : list Document) :
  MondayReader.load_data_board W board_id r = Ok docs ->
  exists items,
    board_items r = Ok items /\
    Forall2 (board_metadata board_id) items docs.
Proof.
  rewrite load_data_board_unfold; intros H.
  apply bind_Ok_inv in H as (items & Hitems & H).
  apply bind_Ok_inv in H as (parsed & Hparsed & H).
  exists items; split; [exact Hitems |].
  apply mapM_Forall2 in Hparsed, H.
  eapply Forall2_compose; [| exact Hparsed | exact H].
  intros item p doc Hp Hdoc; cbv beta in Hp, Hdoc.
  apply parse_data_keeps_id in Hp as (id & Hid & Hpid).
  apply bind_Ok_inv in Hdoc as (t & _ & Hdoc).
  rewrite Hpid in Hdoc; cbn [bind] in Hdoc; injection Hdoc as <-.
  exists id; split; [exact Hid | reflexivity].
Qed.

Lemma load_data_doc_returns (doc_id : option Z) (r : value)
      (docs : list Document) :
  MondayReader.load_data_doc W doc_id r = Ok docs ->
  exists data doc n c cn,
    first_doc r = Ok data /\
    docs = [doc] /\
    getitem data "name" = Ok n /\
    getitem data "created_by" = Ok c /\
    getitem c "name" = Ok cn /\
    extra_info doc = [("doc_id", id_value doc_id); ("doc_name", n);
                      ("created_by", cn)].
Proof.
  rewrite load_data_doc_unfold; intros H.
  apply bind_Ok_inv in H as (data & Hdata & H).
  apply bind_Ok_inv in H as (blocks & _ & H).
  apply bind_Ok_inv in H as (blocks_array & _ & H).
  apply bind_Ok_inv in H as (lines_arr & _ & H).
  apply bind_Ok_inv in H as (n & Hn & H).
  apply bind_Ok_inv in H as (c & Hc & H).
  apply bind_Ok_inv in H as (cn & Hcn & H).
  injection H as <-.
  eexists data, _, n, c, cn; repeat split; eassumption || reflexivity.
Qed.

End Returned.

(** ** The sample data is well formed *)

Lemma sample_item_1_ok : is_item sample_item_1 sample_it_1.
Proof.
  split; [reflexivity |]. split; [reflexivity |].
  eexists; split; [reflexivity |].
  repeat (apply Forall2_cons || apply Forall2_nil); split; reflexivity.
Qed.

Lemma sample_item_2_ok : is_item sample_item_2 sample_it_2.
Proof.
  split; [reflexivity |]. split; [reflexivity |].
  eexists; split; [reflexivity |].
  repeat (apply Forall2_cons || apply Forall2_nil); split; reflexivity.
Qed.

Lemma sample_items_ok : Forall2 is_item [sample_item_1; sample_item_2] sample_items.
Proof.
  repeat (apply Forall2_cons || apply Forall2_nil).
  - exact sample_item_1_ok.
  - exact sample_item_2_ok.
Qed.

Lemma sample_doc_ok (W : World) :
  json_loads W = sample_loads -> is_doc W sample_doc_data sample_doc.
Proof.
  intros HW; unfold is_doc, sample_doc_data, sample_doc; cbn [doc_blocks doc_name doc_creator].
  split; [| split; [reflexivity | eexists; split; reflexivity]].
  eexists; split; [reflexivity |].
  repeat (apply Forall2_cons || apply Forall2_nil).
  - exists sample_content_1, sample_delta_1; eexists.
    rewrite HW; repeat split; try reflexivity.
    repeat (apply Forall2_cons || apply Forall2_nil).
    + split; [reflexivity | left; reflexivity].
    + split; [reflexivity | eexists; split; reflexivity].
  - exists sample_content_2, sample_delta_2; eexists.
    rewrite HW; repeat split; try reflexivity.
    repeat (apply Forall2_cons || apply Forall2_nil).
    split; [reflexivity | right; eexists; split; reflexivity].
Qed.

Lemma answering_quiet (r : value) : quiet (answering r sample_loads).
Proof.
  split; intros x msg; simpl; [discriminate |].
  unfold sample_loads.
  destruct (String.eqb x sample_content_1); [discriminate |].
  destruct (String.eqb x sample_content_2); discriminate.
Qed.

(** * The claims *)

(** ** C1: the precondition *)

(** C1, as stated, fails: with both identifiers given ([board_id = 1],
    [doc_id = 2]) it is not the case that exactly one is non-null, yet the
    call does not fail with the precondition error; it returns the board's
    documents. *)
Lemma C1_both_given_is_accepted :
  exactly_one (Some 1%Z) (Some 2%Z) = false /\
  MondayReader.load_data (answering sample_board_response sample_loads)
                         sample_reader (Some 1%Z) (Some 2%Z)
  = Ok (map (board_document (answering sample_board_response sample_loads) (Some 1%Z))
            sample_items) /\
  ~ (MondayReader.load_data (answering sample_board_response sample_loads)
                            sample_reader (Some 1%Z) (Some 2%Z)
     = Raise precondition_error
     <-> exactly_one (Some 1%Z) (Some 2%Z) = false).
Proof.
  split; [reflexivity |]. split; [reflexivity |].
  intros [_ H]. specialize (H eq_refl). discriminate H.
Qed.

(** C1, amended: in a world whose HTTP layer and JSON parser raise no
    assertion error of their own, a call to [load_data] fails with the
    precondition error exactly when both [board_id] and [doc_id] are
    [None]. *)
Theorem C1_precondition_error_iff_both_None
        (W : World) (self : reader) (board_id doc_id : option Z) :
  quiet W ->
  (MondayReader.load_data W self board_id doc_id = Raise precondition_error
   <-> board_id = None /\ doc_id = None).
Proof.
  intros HW; split.
  - intros H.
    destruct board_id as [b |], doc_id as [d |]; try (split; reflexivity);
      exfalso; revert H; apply clean_after_assert; auto.
  - intros [-> ->]; reflexivity.
Qed.

Lemma C1_precondition_error_iff_both_None_witness :
  MondayReader.load_data (answering sample_board_response sample_loads)
                         sample_reader None None
  = Raise precondition_error
  <-> None = (None : option Z) /\ None = (None : option Z).
Proof.
  apply (C1_precondition_error_iff_both_None
           (answering sample_board_response sample_loads) sample_reader
           None None).
  apply answering_quiet.
Defined.

(** ** C2: the text of a doc *)

(** C2, as stated, fails: for a doc of one block holding the one operation
    [x], joining operations by a tab and blocks by a newline gives [x], but
    the document's text is [x] followed by a space and a tab. *)
Lemma C2_joined_text_differs :
  exists d,
    MondayReader.load_data (answering tiny_doc_response tiny_loads)
                           sample_reader None (Some 5%Z) = Ok [d] /\
    text d = "x " ++ TAB /\
    newline_joined [[ {| ins_text := "x"; ins_link := None |} ]] = "x" /\
    text d <> newline_joined [[ {| ins_text := "x"; ins_link := None |} ]].
Proof.
  eexists; split; [reflexivity |].
  split; [reflexivity |]. split; [reflexivity |].
  vm_compute; discriminate.
Qed.

(** C2, amended: for every doc-mode response with N well-formed blocks,
    [load_data] returns exactly one Document; its text is the blocks' texts
    joined by a space followed by a newline, where a block's text is the
    concatenation of its insert operations' texts, each followed by a space
    and a tab. *)
Theorem C2_doc_text
        (W : World) (self : reader) (board_id : option Z) (d : Z)
        (r data : value) (doc : Doc) :
  id_truthy board_id = false ->
  d <> 0%Z ->
  MondayReader._perform_request W self board_id (Some d) = Ok r ->
  first_doc r = Ok data ->
  is_doc W data doc ->
  exists document,
    MondayReader.load_data W self board_id (Some d) = Ok [document] /\
    text document
    = String.concat (" " ++ LF)
        (map (fun ops =>
                String.concat "" (map (fun i => op_text i ++ " " ++ TAB) ops))
             (doc_blocks doc)).
Proof.
  intros Hb Hd Hr Hdata Hdoc.
  exists (doc_document (Some d) doc); split; [| reflexivity].
  rewrite (load_data_doc_mode W self board_id d Hb Hd), Hr; cbn [bind].
  apply (load_data_doc_ok W (Some d) r data doc Hdata Hdoc).
Qed.

Lemma C2_doc_text_witness :
  exists document,
    MondayReader.load_data monday_world sample_reader None (Some 777%Z)
    = Ok [document] /\
    text document
    = String.concat (" " ++ LF)
        (map (fun ops =>
                String.concat "" (map (fun i => op_text i ++ " " ++ TAB) ops))
             (doc_blocks sample_doc)).
Proof.
  apply (C2_doc_text monday_world sample_reader None 777
                     sample_doc_response sample_doc_data sample_doc).
  - reflexivity.
  - discriminate.
  - reflexivity.
  - reflexivity.
  - apply sample_doc_ok; reflexivity.
Defined.

(** ** C3: the text of a board item *)

(** C3: in board mode, for a response whose first board lists well-formed
    items, the texts of the returned Documents are, item by item,
    [name: <name>] followed by [, <title>: <value>] for each column value
    that is non-empty (truthy: a non-empty string, in particular not
    [None]), in response order, the columns with empty values left out. *)
Theorem C3_board_item_text
        (W : World) (self : reader) (b : Z) (doc_id : option Z)
        (r data : value) (items : list value) (its : list Item) :
  b <> 0%Z ->
  MondayReader._perform_request W self (Some b) doc_id = Ok r ->
  first_board r = Ok data ->
  getitem data "items" = Ok (VList items) ->
  Forall2 is_item items its ->
  exists docs,
    MondayReader.load_data W self (Some b) doc_id = Ok docs /\
    map text docs
    = map (fun it =>
             "name: " ++ format_value W (item_name it)
             ++ String.concat ""
                  (map (fun c => ", " ++ format_value W (col_title c)
                                 ++ ": " ++ format_value W (col_value c))
                       (filter (fun c => truthy (col_value c))
                               (item_columns it))))
          its.
Proof.
  intros Hb Hr Hdata Hitems Hits.
  exists (map (board_document W (Some b)) its); split.
  - rewrite (load_data_board_mode W self b doc_id Hb), Hr; cbn [bind].
    apply (load_data_board_ok W (Some b) r data items its Hdata Hitems Hits).
  - rewrite map_map; reflexivity.
Qed.

Lemma C3_board_item_text_witness :
  exists docs,
    MondayReader.load_data monday_world sample_reader (Some 12345%Z) None
    = Ok docs /\
    map text docs
    = ["name: Write report, Status: Done, Priority: High";
       "name: Review, Owner: Ada"].
Proof.
  apply (C3_board_item_text monday_world sample_reader 12345 None
                            sample_board_response sample_board
                            [sample_item_1; sample_item_2] sample_items).
  - discriminate.
  - reflexivity.
  - reflexivity.
  - reflexivity.
  - apply sample_items_ok.
Defined.

(** ** C4: the number of documents *)

(** C4: in board mode [load_data] returns as many Documents as the first
    board of the response has items (none for a board without items): it
    does so on every response whose items are well formed, and whenever it
    returns at all.  In doc mode it returns exactly one Document, whatever
    the number of blocks. *)
Theorem C4_document_count
        (W : World) (self : reader) (board_id doc_id : option Z) (r : value) :
  MondayReader._perform_request W self board_id doc_id = Ok r ->
  (forall data items its,
      id_truthy board_id = true ->
      first_board r = Ok data ->
      getitem data "items" = Ok (VList items) ->
      Forall2 is_item items its ->
      exists docs,
        MondayReader.load_data W self board_id doc_id = Ok docs /\
        length docs = length items) /\
  (forall data doc,
      id_truthy board_id = false ->
      first_doc r = Ok data ->
      is_doc W data doc ->
      exists docs,
        MondayReader.load_data W self board_id doc_id = Ok docs /\
        length docs = 1) /\
  (forall docs,
      MondayReader.load_data W self board_id doc_id = Ok docs ->
      (id_truthy board_id = true ->
       exists items, board_items r = Ok items /\ length docs = length items) /\
      (id_truthy board_id = false -> length docs = 1)).
Proof.
  intros Hr.
  destruct (load_data_of_response W self board_id doc_id r Hr) as [Heq _].
  rewrite Heq; clear Heq; split; [| split].
  - intros data items its Hb Hdata Hitems Hits; rewrite Hb.
    exists (map (board_document W board_id) its); split.
    + apply (load_data_board_ok W board_id r data items its Hdata Hitems Hits).
    + rewrite length_map; symmetry; apply (Forall2_length Hits).
  - intros data doc Hb Hdata Hdoc; rewrite Hb.
    exists [doc_document doc_id doc]; split; [| reflexivity].
    apply (load_data_doc_ok W doc_id r data doc Hdata Hdoc).
  - intros docs Hdocs; split; intros Hb; rewrite Hb in Hdocs.
    + apply load_data_board_returns in Hdocs as (items & Hitems & Hall).
      exists items; split; [exact Hitems |].
      symmetry; apply (Forall2_length Hall).
    + apply load_data_doc_returns in Hdocs as (data & doc & n & c & cn & _ & -> & _).
      reflexivity.
Qed.

Lemma C4_document_count_witness :
  exists docs,
    MondayReader.load_data monday_world sample_reader (Some 12345%Z) None
    = Ok docs /\
    length docs = length [sample_item_1; sample_item_2].
Proof.
  apply (proj1 (C4_document_count monday_world sample_reader (Some 12345%Z) None
                                  sample_board_response eq_refl)
               sample_board [sample_item_1; sample_item_2] sample_items).
  - reflexivity.
  - reflexivity.
  - reflexivity.
  - apply sample_items_ok.
Defined.

(** A board without items yields no Document. *)
Lemma empty_board_no_documents :
  MondayReader.load_data
    (answering (VDict [("data",
                        VDict [("boards", VList [VDict [("items", VList [])]])])])
               sample_loads)
    sample_reader (Some 12345%Z) None
  = Ok [].
Proof. reflexivity. Qed.

(** ** C5: the metadata *)

(** C5: every Document returned in board mode carries [board_id], the
    requested board id, and [item_id], the id of the item it comes from;
    the Document returned in doc mode carries [doc_id], [doc_name] and
    [created_by], the latter being the name of the creator found in the
    response. *)
Theorem C5_metadata
        (W : World) (self : reader) (board_id doc_id : option Z)
        (r : value) (docs : list Document) :
  MondayReader._perform_request W self board_id doc_id = Ok r ->
  MondayReader.load_data W self board_id doc_id = Ok docs ->
  (id_truthy board_id = true ->
   exists items,
     board_items r = Ok items /\
     Forall2 (fun item doc =>
                exists id,
                  getitem item "id" = Ok id /\
                  dict_get "board_id" (extra_info doc) = Some (id_value board_id) /\
                  dict_get "item_id" (extra_info doc) = Some id)
             items docs) /\
  (id_truthy board_id = false ->
   exists data doc name creator creator_name,
     first_doc r = Ok data /\
     docs = [doc] /\
     getitem data "name" = Ok name /\
     getitem data "created_by" = Ok creator /\
     getitem creator "name" = Ok creator_name /\
     dict_get "doc_id" (extra_info doc) = Some (id_value doc_id) /\
     dict_get "doc_name" (extra_info doc) = Some name /\
     dict_get "created_by" (extra_info doc) = Some creator_name).
Proof.
  intros Hr Hdocs.
  destruct (load_data_of_response W self board_id doc_id r Hr) as [Heq _].
  rewrite Heq in Hdocs; split; intros Hb; rewrite Hb in Hdocs.
  - apply load_data_board_returns in Hdocs as (items & Hitems & Hall).
    exists items; split; [exact Hitems |].
    eapply Forall2_impl; [| exact Hall].
    intros item doc (id & Hid & Hmeta).
    exists id; rewrite Hmeta; split; [exact Hid | split; reflexivity].
  - apply load_data_doc_returns in Hdocs
      as (data & doc & n & c & cn & Hdata & -> & Hn & Hc & Hcn & Hmeta).
    exists data, doc, n, c, cn; rewrite Hmeta.
    repeat (split; [assumption || reflexivity |]); reflexivity.
Qed.

Lemma C5_metadata_witness :
  (id_truthy None = true ->
   exists items,
     board_items sample_doc_response = Ok items /\
     Forall2 (fun item doc =>
                exists id,
                  getitem item "id" = Ok id /\
                  dict_get "board_id" (extra_info doc) = Some (id_value None) /\
                  dict_get "item_id" (extra_info doc) = Some id)
             items [doc_document (Some 777%Z) sample_doc]) /\
  (id_truthy None = false ->
   exists data doc name creator creator_name,
     first_doc sample_doc_response = Ok data /\
     [doc_document (Some 777%Z) sample_doc] = [doc] /\
     getitem data "name" = Ok name /\
     getitem data "created_by" = Ok creator /\
     getitem creator "name" = Ok creator_name /\
     dict_get "doc_id" (extra_info doc) = Some (id_value (Some 777%Z)) /\
     dict_get "doc_name" (extra_info doc) = Some name /\
     dict_get "created_by" (extra_info doc) = Some creator_name).
Proof.
  apply (C5_metadata monday_world sample_reader None (Some 777%Z)
                     sample_doc_response).
  - reflexivity.
  - reflexivity.
Defined.

(** ** C6: links *)

Lemma block_text_app (ops1 ops2 : list Insert) :
  block_text (ops1 ++ ops2) = block_text ops1 ++ block_text ops2.
Proof.
  unfold block_text; induction ops1 as [| i ops1 IH]; cbn [app map].
  - reflexivity.
  - rewrite !concat_empty_cons, IH, !append_assoc; reflexivity.
Qed.

(** What one operation adds to the text of its block, given that the
    operation reads as [i]. *)
Lemma read_block_around (W : World) (block : value) (pre post : list value)
      (ops_pre ops_post : list Insert) (op : value) (i : Insert) :
  delta_of W block (pre ++ op :: post) ->
  Forall2 is_insert pre ops_pre ->
  Forall2 is_insert post ops_post ->
  is_insert op i ->
  MondayReader._read_block W block
  = Ok (block_text ops_pre ++ (op_text i ++ " " ++ TAB) ++ block_text ops_post).
Proof.
  intros (s & loaded & Hc & Hl & Hd) Hpre Hpost Hop.
  rewrite (read_block_ok W block (ops_pre ++ i :: ops_post)).
  - rewrite block_text_app.
    change (i :: ops_post) with ([i] ++ ops_post)%list.
    rewrite block_text_app.
    unfold block_text at 2; cbn [map String.concat]. reflexivity.
  - exists s, loaded, (pre ++ op :: post)%list; repeat split; try assumption.
    apply Forall2_app; [exact Hpre | constructor; assumption].
Qed.

(** C6, as stated, fails: in a block made of the one operation [x], which
    carries no attributes, what the operation contributes to the block is
    not the insert text alone: the block reads as [x] followed by a space
    and a tab. *)
Lemma C6_contribution_ends_with_separator :
  getitem (VDict [("insert", VStr "x")]) "insert" = Ok (VStr "x") /\
  absent (VDict [("insert", VStr "x")]) "attributes" /\
  delta_of (answering tiny_doc_response tiny_loads) tiny_block
           [VDict [("insert", VStr "x")]] /\
  MondayReader._read_block (answering tiny_doc_response tiny_loads) tiny_block
  = Ok ("x " ++ TAB) /\
  MondayReader._read_block (answering tiny_doc_response tiny_loads) tiny_block
  <> Ok "x".
Proof.
  split; [reflexivity |]. split; [reflexivity |].
  split; [exists tiny_content; eexists; repeat split; reflexivity |].
  split; [reflexivity |].
  vm_compute; discriminate.
Qed.

(** C6, amended: for every insert operation of a doc block, standing
    between operations that read well, whose [insert] is the string [t]:
    what the operation contributes to the text [_read_block] returns is
    [t], followed by [ url: <link>] when its attributes carry the link [l]
    (a string), and in every case followed by a space and a tab; when the
    attributes (a JSON object) carry no link, or there are no attributes at
    all, it is [t] followed by the space and the tab. *)
Theorem C6_contribution_to_block
        (W : World) (block : value) (pre post : list value)
        (ops_pre ops_post : list Insert) (op : value) (t : string) :
  delta_of W block (pre ++ op :: post) ->
  Forall2 is_insert pre ops_pre ->
  Forall2 is_insert post ops_post ->
  getitem op "insert" = Ok (VStr t) ->
  (forall a l,
      getitem op "attributes" = Ok a -> getitem a "link" = Ok (VStr l) ->
      MondayReader._read_block W block
      = Ok (block_text ops_pre
            ++ (t ++ " url: " ++ l ++ " " ++ TAB)
            ++ block_text ops_post)) /\
  (forall a,
      getitem op "attributes" = Ok a -> absent a "link" ->
      MondayReader._read_block W block
      = Ok (block_text ops_pre ++ (t ++ " " ++ TAB) ++ block_text ops_post)) /\
  (absent op "attributes" ->
   MondayReader._read_block W block
   = Ok (block_text ops_pre ++ (t ++ " " ++ TAB) ++ block_text ops_post)).
Proof.
  intros Hblock Hpre Hpost Hins; split; [| split].
  - intros a l Ha Hl.
    rewrite (read_block_around W block pre post ops_pre ops_post op
               {| ins_text := t; ins_link := Some l |} Hblock Hpre Hpost).
    + unfold op_text; cbn [ins_text ins_link].
      rewrite !append_assoc; reflexivity.
    + split; [exact Hins | exists a; split; assumption].
  - intros a Ha Habs.
    apply (read_block_around W block pre post ops_pre ops_post op
             {| ins_text := t; ins_link := None |} Hblock Hpre Hpost).
    split; [exact Hins | right; exists a; split; assumption].
  - intros Habs.
    apply (read_block_around W block pre post ops_pre ops_post op
             {| ins_text := t; ins_link := None |} Hblock Hpre Hpost).
    split; [exact Hins | left; exact Habs].
Qed.

Lemma C6_contribution_to_block_witness :
  MondayReader._read_block monday_world sample_block_1
  = Ok (block_text [ {| ins_text := "Hello"; ins_link := None |} ]
        ++ ("site" ++ " url: " ++ "https://example.org" ++ " " ++ TAB)
        ++ block_text []).
Proof.
  refine (proj1 (C6_contribution_to_block
                   monday_world sample_block_1
                   [VDict [("insert", VStr "Hello")]] []
                   [ {| ins_text := "Hello"; ins_link := None |} ] []
                   sample_op_link "site" _ _ _ _)
                (VDict [("link", VStr "https://example.org")])
                "https://example.org" _ _).
  - exists sample_content_1, sample_delta_1; repeat split; reflexivity.
  - apply Forall2_cons; [| apply Forall2_nil].
    split; [reflexivity | left; reflexivity].
  - apply Forall2_nil.
  - reflexivity.
  - reflexivity.
  - reflexivity.
Defined.

(** ** C7: both identifiers given *)

(** C7, as stated, fails: with [board_id = 0] and [doc_id = 777] both
    identifiers are non-null, yet the doc query is posted and the doc
    branch runs: the doc's Document is returned, and the board branch would
    have raised on that response. *)
Lemma C7_zero_board_id_runs_doc_mode :
  is_not_None (Some 0%Z) = true /\
  is_not_None (Some 777%Z) = true /\
  MondayReader.load_data monday_world sample_reader (Some 0%Z) (Some 777%Z)
  = Ok [doc_document (Some 777%Z) sample_doc] /\
  MondayReader.load_data monday_world sample_reader (Some 0%Z) (Some 777%Z)
  = MondayReader.load_data_doc monday_world (Some 777%Z) sample_doc_response /\
  MondayReader.load_data_board monday_world (Some 0%Z) sample_doc_response
  = Raise (KeyError (VStr "boards")).
Proof. repeat split. Qed.

(** C7, amended: for every call in which both identifiers are non-null,
    [board_id] is not zero and both fit the limit on integer-to-string
    conversion, the call does not fail on the precondition, the board
    query is built, one request is posted and the response is handled by
    the board branch alone.  The query posted is the board query when
    [doc_id] is zero; when [doc_id] is not zero it is the doc query, which
    is built after the board query and replaces it. *)
Theorem C7_both_given_board_branch
        (W : World) (self : reader) (b d : Z) :
  b <> 0%Z ->
  fits b = true ->
  fits d = true ->
  MondayReader.query_after_board_test (Some b)
  = Ok (Some (MondayReader.board_query b)) /\
  MondayReader.load_data W self (Some b) (Some d)
  = (r <- post_json W
            {| req_url := api_url self;
               req_json :=
                 [("query",
                   if (d =? 0)%Z
                   then MondayReader.board_query b
                   else MondayReader.doc_query d)];
               req_headers := [("Authorization", api_key self)] |} ;;
     MondayReader.load_data_board W (Some b) r).
Proof.
  intros Hb Hfb Hfd; pose proof (proj2 (truthy_id b) Hb) as Ht.
  split.
  - unfold MondayReader.query_after_board_test, percent_d.
    rewrite Ht, Hfb; reflexivity.
  - rewrite (load_data_board_mode W self b (Some d) Hb).
    unfold MondayReader._perform_request; rewrite request_table.
    cbn [id_int]; rewrite Ht, Hfb, Hfd; cbn [andb negb].
    unfold id_truthy; cbn [id_value truthy].
    destruct (d =? 0)%Z; reflexivity.
Qed.

Lemma C7_both_given_board_branch_witness :
  MondayReader.query_after_board_test (Some 12345%Z)
  = Ok (Some (MondayReader.board_query 12345)) /\
  MondayReader.load_data monday_world sample_reader (Some 12345%Z) (Some 777%Z)
  = (r <- post_json monday_world
            {| req_url := api_url sample_reader;
               req_json :=
                 [("query",
                   if (777 =? 0)%Z
                   then MondayReader.board_query 12345
                   else MondayReader.doc_query 777)];
               req_headers := [("Authorization", api_key sample_reader)] |} ;;
     MondayReader.load_data_board monday_world (Some 12345%Z) r).
Proof.
  apply (C7_both_given_board_branch monday_world sample_reader 12345 777).
  - discriminate.
  - reflexivity.
  - reflexivity.
Defined.

(** With both identifiers non-zero the query that is posted is the doc
    query: the test on [doc_id] replaces the board query built before. *)
Lemma both_given_posts_doc_query (self : reader) (b d : Z) :
  b <> 0%Z -> d <> 0%Z -> fits b = true -> fits d = true ->
  MondayReader.request self (Some b) (Some d)
  = Ok {| req_url := api_url self;
          req_json := [("query", MondayReader.doc_query d)];
          req_headers := [("Authorization", api_key self)] |}.
Proof.
  intros Hb Hd Hfb Hfd; apply truthy_id in Hb, Hd.
  rewrite request_table; cbn [id_int].
  rewrite Hb, Hd, Hfb, Hfd; reflexivity.
Qed.

(** An identifier too long to be formatted ends the call with a
    [ValueError], raised when the query is built. *)
Lemma unformattable_id_ValueError
      (W : World) (self : reader) (board_id doc_id : option Z) :
  formattable board_id && formattable doc_id = false ->
  MondayReader.load_data W self board_id doc_id = Raise ValueError.
Proof.
  unfold formattable, MondayReader.load_data, MondayReader._perform_request.
  rewrite request_table.
  destruct board_id as [b |], doc_id as [d |]; cbn [id_int is_not_None orb negb];
    change (id_truthy None) with false; cbn [negb orb andb];
    try destruct (id_truthy (Some b)); try destruct (id_truthy (Some d));
    cbn [negb orb andb];
    try destruct (fits b); try destruct (fits d); cbn [negb andb];
    intros H; try discriminate H; reflexivity.
Qed.

(** So against a server that answers the query it is sent, a call with
    both identifiers ends in a missing-key error. *)
Lemma both_given_against_server :
  MondayReader.load_data monday_world sample_reader (Some 12345%Z) (Some 777%Z)
  = Raise (KeyError (VStr "boards")).
Proof. reflexivity. Qed.

(** ** C8: missing keys *)

(** C8: when the response lacks a key the reader reads (no [data], no
    [boards] or [docs], or a key missing further down, after any number of
    well-formed items or blocks), [load_data] raises the missing-key error
    for that key; no Document is returned, not even for the items or
    blocks read before.  And when [load_data] does return, the list is
    complete: one Document per item of the board, or the one Document of
    the doc. *)
Theorem C8_missing_key
        (W : World) (self : reader) (board_id doc_id : option Z) (r : value) :
  MondayReader._perform_request W self board_id doc_id = Ok r ->
  (forall k,
      lacks_key W (id_truthy board_id) r k ->
      MondayReader.load_data W self board_id doc_id = Raise (KeyError (VStr k))) /\
  (forall docs,
      MondayReader.load_data W self board_id doc_id = Ok docs ->
      if id_truthy board_id
      then exists items, board_items r = Ok items /\ length docs = length items
      else length docs = 1).
Proof.
  intros Hr.
  destruct (load_data_of_response W self board_id doc_id r Hr) as [Heq _].
  rewrite Heq; clear Heq; split.
  - intros k Hk.
    destruct Hk as [r Habs | r k Hmode Hk | r k Hmode Hk].
    + destruct (id_truthy board_id).
      * unfold MondayReader.load_data_board; rewrite Habs; reflexivity.
      * unfold MondayReader.load_data_doc; rewrite Habs; reflexivity.
    + rewrite Hmode; apply board_lacks_raises; exact Hk.
    + rewrite Hmode; apply doc_lacks_raises; exact Hk.
  - intros docs Hdocs; destruct (id_truthy board_id).
    + apply load_data_board_returns in Hdocs as (items & Hitems & Hall).
      exists items; split; [exact Hitems |].
      symmetry; apply (Forall2_length Hall).
    + apply load_data_doc_returns in Hdocs as (data & doc & n & c & cn & _ & -> & _).
      reflexivity.
Qed.

Lemma C8_missing_key_witness :
  MondayReader.load_data (answering broken_board_response sample_loads)
                         sample_reader (Some 12345%Z) None
  = Raise (KeyError (VStr "id")).
Proof.
  apply (proj1 (C8_missing_key (answering broken_board_response sample_loads)
                               sample_reader (Some 12345%Z) None
                               broken_board_response eq_refl)
               "id").
  apply board_key; [reflexivity |].
  apply (in_item broken_board_response
                 (VDict [("name", VStr "Tasks");
                         ("items",
                          VList [sample_item_1;
                                 VDict [("name", VStr "Review");
                                        ("column_values", VList [])]])])
                 [sample_item_1]
                 (VDict [("name", VStr "Review"); ("column_values", VList [])])
                 []
                 [sample_it_1]
                 "id").
  - reflexivity.
  - reflexivity.
  - apply Forall2_cons; [| apply Forall2_nil].
    exact sample_item_1_ok.
  - apply no_id; reflexivity.
Defined.

(** ** C9: an identifier that is zero *)

(** C9, as stated, fails: with [board_id = 0] and [doc_id = None] the call
    does not fail on the unbound [result] of the final [return]. *)
Lemma C9_not_at_return_result :
  MondayReader.load_data monday_world sample_reader (Some 0%Z) None
  <> Raise (UnboundLocalError "result").
Proof. vm_compute; discriminate. Qed.

(** C9, amended: with [board_id = 0] and [doc_id = None] (or [doc_id = 0]
    and [board_id = None]) the assertion passes, since it compares with
    [None], while neither identifier is truthy; [load_data] then fails with
    an unbound-variable error rather than the precondition error, and the
    unbound variable is [query], read in [_perform_request] before any
    request is posted and before either branch of [load_data] is
    reached. *)
Theorem C9_zero_id_unbound_query (W : World) (self : reader) :
  (is_not_None (Some 0%Z) || is_not_None None = true) /\
  id_truthy (Some 0%Z) = false /\
  id_truthy None = false /\
  MondayReader.request self (Some 0%Z) None = Raise (UnboundLocalError "query") /\
  MondayReader.request self None (Some 0%Z) = Raise (UnboundLocalError "query") /\
  MondayReader.load_data W self (Some 0%Z) None = Raise (UnboundLocalError "query") /\
  MondayReader.load_data W self None (Some 0%Z) = Raise (UnboundLocalError "query") /\
  MondayReader.load_data W self (Some 0%Z) None <> Raise precondition_error.
Proof. repeat split; discriminate. Qed.

(** ** C10: the two definitions of the class *)

(** C10, as stated, fails: on a response whose first board comes without a
    [name], the first definition raises a missing-key error (it reads
    [board_data["name"]]) while the second returns the board's
    documents. *)
Lemma C10_first_definition_reads_name :
  MondayReader_1.load_data (answering nameless_board_response sample_loads)
                           sample_reader 12345%Z
  = Raise (KeyError (VStr "name")) /\
  MondayReader.load_data (answering nameless_board_response sample_loads)
                         sample_reader (Some 12345%Z) None
  = Ok (map (board_document (answering nameless_board_response sample_loads)
                            (Some 12345%Z))
            sample_items) /\
  MondayReader_1.load_data (answering nameless_board_response sample_loads)
                           sample_reader 12345%Z
  <> MondayReader.load_data (answering nameless_board_response sample_loads)
                            sample_reader (Some 12345%Z) None.
Proof.
  split; [reflexivity |]. split; [reflexivity |].
  vm_compute; discriminate.
Qed.

(** The first definition's [load_data] on a response it was given. *)
Lemma first_definition_on_response
      (W : World) (board_id : option Z) (b : Z) (r : value) :
  board_id = Some b ->
  (forall data, first_board r = Ok data -> ~ absent data "name") ->
  (d <- getitem r "data" ;;
   bs <- getitem d "boards" ;;
   board_data <- getitem0 bs ;;
   _ <- getitem board_data "name" ;;
   items <- getitem board_data "items" ;;
   items_array <- py_list items ;;
   copy <- py_list (VList items_array) ;;
   parsed_items <- mapM MondayReader_1._parse_data copy ;;
   foldM (fun result item =>
            text <- MondayReader_1.item_text W item ;;
            id <- getitem item "id" ;;
            Ok (result ++ [ {| text := text;
                               extra_info := [("board_id", VInt b);
                                              ("item_id", id)] |} ])%list)
         parsed_items [])
  = MondayReader.load_data_board W board_id r.
Proof.
  intros -> Hname; unfold MondayReader.load_data_board.
  unfold first_board in Hname.
  destruct (getitem r "data") as [d | e]; [| reflexivity]; cbn [bind] in *.
  destruct (getitem d "boards") as [bs | e]; [| reflexivity]; cbn [bind] in *.
  destruct (getitem0 bs) as [data | e]; [| reflexivity]; cbn [bind] in *.
  specialize (Hname data eq_refl); unfold absent in Hname.
  destruct data as [| | | | | kvs]; try reflexivity.
  cbn [getitem] in *.
  destruct (dict_get "name" kvs) as [n |]; [| contradiction Hname; reflexivity].
  cbn [bind].
  destruct (dict_get "items" kvs) as [items |]; [| reflexivity]; cbn [bind].
  destruct (py_list items) as [l | e]; reflexivity.
Qed.

(** C10, amended: the module defines the class twice, and for every
    non-zero [board_id] and every response, given to both, whose first
    board carries a [name], the first definition's [load_data] gives
    exactly the result (the same Documents, texts and metadata, or the
    same exception) of the second definition's [load_data] called with
    that [board_id] and [doc_id = None]. *)
Theorem C10_definitions_agree
        (W : World) (self : reader) (b : Z) (r : value) :
  b <> 0%Z ->
  MondayReader_1._perform_request W self b = Ok r ->
  MondayReader._perform_request W self (Some b) None = Ok r ->
  (forall data, first_board r = Ok data -> ~ absent data "name") ->
  MondayReader_1.load_data W self b
  = MondayReader.load_data W self (Some b) None.
Proof.
  intros Hb H1 H2 Hname.
  rewrite (load_data_board_mode W self b None Hb), H2; cbn [bind].
  unfold MondayReader_1.load_data; rewrite H1; cbn [bind].
  apply (first_definition_on_response W (Some b) b r eq_refl Hname).
Qed.

Lemma C10_definitions_agree_witness :
  MondayReader_1.load_data monday_world sample_reader 12345%Z
  = MondayReader.load_data monday_world sample_reader (Some 12345%Z) None.
Proof.
  apply (C10_definitions_agree monday_world sample_reader 12345
                               sample_board_response).
  - discriminate.
  - reflexivity.
  - reflexivity.
  - intros data Hdata; injection Hdata as <-; discriminate.
Defined.

(** The two definitions post different query strings (the literals are
    indented differently), and the first one accepts [board_id = 0]. *)
Lemma queries_differ :
  MondayReader_1.board_query 12345 <> MondayReader.board_query 12345.
Proof. vm_compute; discriminate. Qed.

Lemma first_definition_accepts_zero :
  MondayReader_1.load_data (answering sample_board_response sample_loads)
                           sample_reader 0%Z
  = Ok (map (board_document (answering sample_board_response sample_loads)
                            (Some 0%Z))
            sample_items) /\
  MondayReader.load_data (answering sample_board_response sample_loads)
                         sample_reader (Some 0%Z) None
  = Raise (UnboundLocalError "query").
Proof. split; reflexivity. Qed.

(** * Further properties of the reader *)

(** ** Parsing items (lines 114-127) *)

Lemma Forall2_image {A B C : Type} (R : A -> C -> Prop) (f : C -> B)
      (l : list A) (l' : list B) :
  Forall2 (fun a b => exists c, R a c /\ b = f c) l l' ->
  exists cs, Forall2 R l cs /\ l' = map f cs.
Proof.
  intros H; induction H as [| a b l l' (c & Hc & ->) _ (cs & Hcs & ->)].
  - exists []; split; [constructor | reflexivity].
  - exists (c :: cs); split; [constructor; assumption | reflexivity].
Qed.

Lemma parse_item_values_inv (cv p : value) :
  MondayReader._parse_item_values cv = Ok p ->
  exists c, is_column cv c /\ p = parsed_column c.
Proof.
  unfold MondayReader._parse_item_values; intros H.
  apply bind_Ok_inv in H as (t & Ht & H).
  apply bind_Ok_inv in H as (v & Hv & H).
  injection H as <-.
  exists {| col_title := t; col_value := v |}; split; [split; assumption | reflexivity].
Qed.

Lemma parse_data_inv (item p : value) :
  MondayReader._parse_data item = Ok p ->
  exists it, is_item_iter item it /\ p = parsed_item it.
Proof.
  unfold MondayReader._parse_data; intros H.
  apply bind_Ok_inv in H as (id & Hid & H).
  apply bind_Ok_inv in H as (name & Hname & H).
  apply bind_Ok_inv in H as (cvs & Hcvs & H).
  apply bind_Ok_inv in H as (cvl & Hcvl & H).
  apply bind_Ok_inv in H as (values & Hvalues & H).
  injection H as <-.
  apply mapM_Forall2 in Hvalues.
  destruct (Forall2_image is_column parsed_column cvl values) as (cols & Hcols & ->).
  { eapply Forall2_impl; [| exact Hvalues].
    intros cv v Hv; apply parse_item_values_inv; exact Hv. }
  exists {| item_id := id; item_name := name; item_columns := cols |}.
  split; [| reflexivity].
  split; [exact Hid |]. split; [exact Hname |].
  exists cvs, cvl; repeat split; assumption.
Qed.

Lemma parse_data_iter_ok (item : value) (it : Item) :
  is_item_iter item it -> MondayReader._parse_data item = Ok (parsed_item it).
Proof.
  intros (Hid & Hname & cvs & cvl & Hcvs & Hcvl & Hcols).
  unfold MondayReader._parse_data.
  rewrite Hid; cbn [bind]; rewrite Hname; cbn [bind].
  rewrite Hcvs; cbn [bind]; rewrite Hcvl; cbn [bind].
  rewrite (parse_columns_ok _ _ Hcols); reflexivity.
Qed.

(** [_parse_data] returns exactly on the items that carry [id], [name]
    and an iterable [column_values] whose elements carry [title] and
    [text]; what it returns has the three keys [id], [name] and [values],
    the latter listing [title] and [value] of every column, in order. *)
Theorem parse_data_exact (item p : value) :
  MondayReader._parse_data item = Ok p
  <-> exists it, is_item_iter item it /\ p = parsed_item it.
Proof.
  split.
  - apply parse_data_inv.
  - intros (it & Hit & ->); apply parse_data_iter_ok; exact Hit.
Qed.

Lemma parse_data_exact_witness :
  MondayReader._parse_data sample_item_1 = Ok (parsed_item sample_it_1).
Proof.
  apply (proj2 (parse_data_exact sample_item_1 (parsed_item sample_it_1))).
  exists sample_it_1; split; [| reflexivity].
  split; [reflexivity |]. split; [reflexivity |].
  eexists; eexists; split; [reflexivity |]. split; [reflexivity |].
  repeat (apply Forall2_cons || apply Forall2_nil); split; reflexivity.
Defined.

(** ** The board branch, exactly (lines 203-218) *)

Lemma parse_items_exact (items parsed : list value) :
  mapM MondayReader._parse_data items = Ok parsed
  <-> exists its, Forall2 is_item_iter items its /\ parsed = map parsed_item its.
Proof.
  split.
  - intros H; apply mapM_Forall2 in H.
    apply Forall2_image.
    eapply Forall2_impl; [| exact H].
    intros item p Hp; apply parse_data_inv; exact Hp.
  - intros (its & Hits & ->); apply mapM_Forall2.
    induction Hits as [| item it items its Hi _ IH]; simpl; constructor.
    + apply parse_data_iter_ok; exact Hi.
    + exact IH.
Qed.

(** In board mode, once the request is answered, [load_data] returns
    exactly when the items of the first board are iterable and each is an
    item in the sense of [is_item_iter]; what it returns is then one
    Document per item, in order, with the item's text and metadata.  On
    every other response it raises. *)
Theorem load_data_board_exact
        (W : World) (self : reader) (b : Z) (doc_id : option Z)
        (r : value) (docs : list Document) :
  b <> 0%Z ->
  MondayReader._perform_request W self (Some b) doc_id = Ok r ->
  (MondayReader.load_data W self (Some b) doc_id = Ok docs
   <-> exists items its,
         board_items r = Ok items /\
         Forall2 is_item_iter items its /\
         docs = map (board_document W (Some b)) its).
Proof.
  intros Hb Hr.
  rewrite (load_data_board_mode W self b doc_id Hb), Hr; cbn [bind].
  rewrite load_data_board_unfold; split.
  - intros H.
    apply bind_Ok_inv in H as (items & Hitems & H).
    apply bind_Ok_inv in H as (parsed & Hparsed & H).
    apply parse_items_exact in Hparsed as (its & Hits & ->).
    rewrite documents_of_parsed in H; injection H as <-.
    exists items, its; repeat split; assumption.
  - intros (items & its & Hitems & Hits & ->).
    rewrite Hitems; cbn [bind].
    rewrite (proj2 (parse_items_exact items (map parsed_item its)));
      [| exists its; split; [exact Hits | reflexivity]].
    cbn [bind]; apply documents_of_parsed.
Qed.

Lemma load_data_board_exact_witness :
  MondayReader.load_data monday_world sample_reader (Some 12345%Z) None
  = Ok (map (board_document monday_world (Some 12345%Z)) sample_items)
  <-> exists items its,
        board_items sample_board_response = Ok items /\
        Forall2 is_item_iter items its /\
        map (board_document monday_world (Some 12345%Z)) sample_items
        = map (board_document monday_world (Some 12345%Z)) its.
Proof.
  apply (load_data_board_exact monday_world sample_reader 12345 None
                               sample_board_response).
  - discriminate.
  - reflexivity.
Defined.

Lemma prefix_append (p s : string) : prefix p (p ++ s) = true.
Proof.
  induction p as [| c p IH]; simpl.
  - destruct s; reflexivity.
  - destruct (ascii_dec c c) as [_ | Hne]; [exact IH | contradiction Hne; reflexivity].
Qed.

(** Whatever the response, every Document returned in board mode has a
    text that begins with [name: ]. *)
Theorem board_texts_start_with_name
        (W : World) (self : reader) (b : Z) (doc_id : option Z)
        (docs : list Document) :
  b <> 0%Z ->
  MondayReader.load_data W self (Some b) doc_id = Ok docs ->
  Forall (fun d => prefix "name: " (text d) = true) docs.
Proof.
  intros Hb H.
  rewrite (load_data_board_mode W self b doc_id Hb) in H.
  apply bind_Ok_inv in H as (r & Hr & H).
  rewrite load_data_board_unfold in H.
  apply bind_Ok_inv in H as (items & _ & H).
  apply bind_Ok_inv in H as (parsed & Hparsed & H).
  apply parse_items_exact in Hparsed as (its & _ & ->).
  rewrite documents_of_parsed in H; injection H as <-.
  apply Forall_forall; intros d Hd.
  apply in_map_iff in Hd as (it & <- & _).
  unfold board_document, board_item_text; cbn [text].
  apply (prefix_append "name: ").
Qed.

Lemma board_texts_start_with_name_witness :
  Forall (fun d => prefix "name: " (text d) = true)
         (map (board_document monday_world (Some 12345%Z)) sample_items).
Proof.
  apply (board_texts_start_with_name monday_world sample_reader 12345 None).
  - discriminate.
  - reflexivity.
Defined.

(** ** The first definition (lines 60-88) *)

(** The first definition of [load_data] takes any [board_id], zero
    included: on a response whose first board carries a [name] and lists
    well-formed items it returns one Document per item, with the item's
    text and the metadata [board_id] and [item_id]. *)
Theorem first_definition_board_documents
        (W : World) (self : reader) (b : Z) (r data n : value)
        (items : list value) (its : list Item) :
  MondayReader_1._perform_request W self b = Ok r ->
  first_board r = Ok data ->
  getitem data "name" = Ok n ->
  getitem data "items" = Ok (VList items) ->
  Forall2 is_item items its ->
  MondayReader_1.load_data W self b
  = Ok (map (board_document W (Some b)) its).
Proof.
  intros Hr Hdata Hn Hitems Hits.
  unfold MondayReader_1.load_data; rewrite Hr; cbn [bind].
  rewrite (first_definition_on_response W (Some b) b r eq_refl).
  - apply (load_data_board_ok W (Some b) r data items its Hdata Hitems Hits).
  - intros data' Hdata'; rewrite Hdata in Hdata'; injection Hdata' as <-.
    unfold absent; rewrite Hn; discriminate.
Qed.

Lemma first_definition_board_documents_witness :
  MondayReader_1.load_data (answering sample_board_response sample_loads)
                           sample_reader 0%Z
  = Ok (map (board_document (answering sample_board_response sample_loads)
                            (Some 0%Z))
            sample_items).
Proof.
  apply (first_definition_board_documents
           (answering sample_board_response sample_loads) sample_reader 0
           sample_board_response sample_board (VStr "Tasks")
           [sample_item_1; sample_item_2] sample_items).
  - reflexivity.
  - reflexivity.
  - reflexivity.
  - reflexivity.
  - apply sample_items_ok.
Defined.

(** ** The request (lines 108-112 and 141-185) *)

(** A reader built by [__init__] builds a request exactly when one of the
    two identifiers is truthy and every truthy identifier fits the limit
    on integer-to-string conversion.  The request goes to the monday.com
    endpoint with the API key as its only header, and its body holds the
    single key [query]: the doc query whenever [doc_id] is truthy, also
    when [board_id] is too, and the board query otherwise. *)
Theorem request_exact (key : string) (board_id doc_id : option Z) (rq : Request) :
  MondayReader.request (MondayReader.__init__ key) board_id doc_id = Ok rq
  <-> id_truthy board_id || id_truthy doc_id = true /\
      formattable board_id = true /\
      formattable doc_id = true /\
      rq = {| req_url := "https://api.monday.com/v2";
              req_json :=
                [("query",
                  if id_truthy doc_id
                  then MondayReader.doc_query (id_int doc_id)
                  else MondayReader.board_query (id_int board_id))];
              req_headers := [("Authorization", key)] |}.
Proof.
  rewrite request_table; unfold formattable, MondayReader.__init__.
  cbn [api_key api_url].
  destruct (id_truthy board_id), (id_truthy doc_id),
    (fits (id_int board_id)), (fits (id_int doc_id));
    cbn [andb orb negb]; split;
    try (intros H; discriminate H);
    try (intros H; injection H as <-; repeat split; reflexivity);
    try (intros (_ & _ & _ & ->); reflexivity);
    try (intros (H & _); discriminate H);
    try (intros (_ & H & _); discriminate H);
    try (intros (_ & _ & H & _); discriminate H).
Qed.

Lemma request_exact_witness :
  MondayReader.request (MondayReader.__init__ "api_key")
                       (Some 12345%Z) (Some 777%Z)
  = Ok {| req_url := "https://api.monday.com/v2";
          req_json := [("query", MondayReader.doc_query 777)];
          req_headers := [("Authorization", "api_key")] |}.
Proof.
  apply (proj2 (request_exact "api_key" (Some 12345%Z) (Some 777%Z) _)).
  repeat split; reflexivity.
Defined.

(** ** The queries (lines 145-180) *)

Lemma append_length (a b : string) :
  String.length (a ++ b) = String.length a + String.length b.
Proof. induction a as [| c a IH]; simpl; [reflexivity | rewrite IH; reflexivity]. Qed.

Lemma append_inv_head (p a b : string) : p ++ a = p ++ b -> a = b.
Proof.
  induction p as [| c p IH]; simpl; intros H.
  - exact H.
  - injection H as H; apply IH; exact H.
Qed.

Lemma append_inv_tail (a b s : string) : a ++ s = b ++ s -> a = b.
Proof.
  revert b; induction a as [| c a IH]; intros b H.
  - destruct b as [| c' b]; [reflexivity |].
    apply (f_equal String.length) in H; simpl in H.
    rewrite append_length in H; lia.
  - destruct b as [| c' b].
    + apply (f_equal String.length) in H; simpl in H.
      rewrite append_length in H; lia.
    + simpl in H; injection H as -> H.
      rewrite (IH b H); reflexivity.
Qed.

Lemma to_int_not_nil (z : Z) :
  Z.to_int z <> Decimal.Pos Decimal.Nil /\ Z.to_int z <> Decimal.Neg Decimal.Nil.
Proof.
  destruct z as [| p | p]; simpl; split; try discriminate;
    intros H; injection H as H; exact (Unsigned.to_uint_nonnil p H).
Qed.

(** ["%d" % z] can be read back. *)
Lemma format_d_inj (z z' : Z) : format_d z = format_d z' -> z = z'.
Proof.
  unfold format_d; intros H.
  apply to_int_inj.
  destruct (to_int_not_nil z) as [Hp Hn], (to_int_not_nil z') as [Hp' Hn'].
  apply (f_equal NilZero.int_of_string) in H.
  rewrite (NilZero.isi _ Hp Hn), (NilZero.isi _ Hp' Hn') in H.
  injection H as H; exact H.
Qed.

(** The query tells the server what is asked: queries for different boards
    differ, queries for different docs differ, and a board query is never a
    doc query. *)
Theorem queries_tell_ids_apart (i j : Z) :
  (MondayReader.board_query i = MondayReader.board_query j -> i = j) /\
  (MondayReader.doc_query i = MondayReader.doc_query j -> i = j) /\
  MondayReader.board_query i <> MondayReader.doc_query j.
Proof.
  unfold MondayReader.board_query, MondayReader.doc_query; split; [| split].
  - intros H; apply append_inv_head in H.
    apply append_inv_tail in H; apply format_d_inj; exact H.
  - intros H; apply append_inv_head in H.
    apply append_inv_tail in H; apply format_d_inj; exact H.
  - cbn [append]; intros H; discriminate H.
Qed.

(** ** Failures that are not of the reader's making *)

(** An exception of the HTTP round trip is not caught: [load_data] raises
    it as it is. *)
Theorem http_error_propagates
        (W : World) (self : reader) (board_id doc_id : option Z)
        (rq : Request) (e : exn) :
  MondayReader.request self board_id doc_id = Ok rq ->
  post_json W rq = Raise e ->
  MondayReader.load_data W self board_id doc_id = Raise e.
Proof.
  intros Hrq He; unfold MondayReader.load_data, MondayReader._perform_request.
  rewrite Hrq; cbn [bind]; rewrite He; cbn [bind].
  destruct board_id, doc_id; try reflexivity.
  discriminate Hrq.
Qed.

Lemma http_error_propagates_witness :
  MondayReader.load_data unreachable sample_reader (Some 12345%Z) None
  = Raise (ExternalError "ConnectionError").
Proof.
  apply (http_error_propagates unreachable sample_reader (Some 12345%Z) None
           {| req_url := "https://api.monday.com/v2";
              req_json := [("query", MondayReader.board_query 12345)];
              req_headers := [("Authorization", "api_key")] |}).
  - reflexivity.
  - reflexivity.
Defined.

(** ** An id the server does not know (lines 204 and 220) *)

(** When the server answers with an empty list of boards (of docs, in doc
    mode), [load_data] raises an [IndexError]. *)
Theorem empty_answer_IndexError
        (W : World) (self : reader) (board_id doc_id : option Z) (r d : value) :
  MondayReader._perform_request W self board_id doc_id = Ok r ->
  getitem r "data" = Ok d ->
  getitem d (if id_truthy board_id then "boards" else "docs") = Ok (VList []) ->
  MondayReader.load_data W self board_id doc_id = Raise IndexError.
Proof.
  intros Hr Hd Hl.
  destruct (load_data_of_response W self board_id doc_id r Hr) as [-> _].
  destruct (id_truthy board_id).
  - unfold MondayReader.load_data_board; rewrite Hd; cbn [bind]; rewrite Hl; reflexivity.
  - unfold MondayReader.load_data_doc; rewrite Hd; cbn [bind]; rewrite Hl; reflexivity.
Qed.

Lemma empty_answer_IndexError_witness :
  MondayReader.load_data
    (answering (VDict [("data", VDict [("boards", VList [])])]) sample_loads)
    sample_reader (Some 4%Z) None
  = Raise IndexError.
Proof.
  apply (empty_answer_IndexError
           (answering (VDict [("data", VDict [("boards", VList [])])]) sample_loads)
           sample_reader (Some 4%Z) None
           (VDict [("data", VDict [("boards", VList [])])])
           (VDict [("boards", VList [])])).
  - reflexivity.
  - reflexivity.
  - reflexivity.
Defined.

(** ** Only the first board, or doc, is read (lines 204 and 220) *)

(** Two responses whose lists of boards (of docs) begin with the same
    entry give the same result: what follows the first entry is not
    read. *)
Theorem only_first_entry_is_read
        (W : World) (id : option Z) (r r' d d' x : value) (rest rest' : list value) :
  getitem r "data" = Ok d ->
  getitem r' "data" = Ok d' ->
  (getitem d "boards" = Ok (VList (x :: rest)) ->
   getitem d' "boards" = Ok (VList (x :: rest')) ->
   MondayReader.load_data_board W id r = MondayReader.load_data_board W id r') /\
  (getitem d "docs" = Ok (VList (x :: rest)) ->
   getitem d' "docs" = Ok (VList (x :: rest')) ->
   MondayReader.load_data_doc W id r = MondayReader.load_data_doc W id r').
Proof.
  intros Hd Hd'; split; intros Hl Hl'.
  - unfold MondayReader.load_data_board.
    rewrite Hd, Hd'; cbn [bind]; rewrite Hl, Hl'; reflexivity.
  - unfold MondayReader.load_data_doc.
    rewrite Hd, Hd'; cbn [bind]; rewrite Hl, Hl'; reflexivity.
Qed.

Lemma only_first_entry_is_read_witness :
  MondayReader.load_data_board monday_world (Some 12345%Z)
    (VDict [("data", VDict [("boards", VList [sample_board; VNone])])])
  = MondayReader.load_data_board monday_world (Some 12345%Z) sample_board_response.
Proof.
  apply (proj1 (only_first_entry_is_read
                  monday_world (Some 12345%Z)
                  (VDict [("data", VDict [("boards", VList [sample_board; VNone])])])
                  sample_board_response
                  (VDict [("boards", VList [sample_board; VNone])])
                  (VDict [("boards", VList [sample_board])])
                  sample_board [VNone] [] eq_refl eq_refl));
    reflexivity.
Defined.

(** ** The first failure decides (lines 206 and 222) *)

(** In board mode, when an item cannot be parsed, [load_data] raises that
    item's exception, whatever it is: the items parsed before give no
    Document and the items after it are not looked at. *)
Theorem first_failing_item_decides
        (W : World) (self : reader) (b : Z) (doc_id : option Z) (r : value)
        (pre post parsed : list value) (bad : value) (e : exn) :
  b <> 0%Z ->
  MondayReader._perform_request W self (Some b) doc_id = Ok r ->
  board_items r = Ok (pre ++ bad :: post)%list ->
  mapM MondayReader._parse_data pre = Ok parsed ->
  MondayReader._parse_data bad = Raise e ->
  MondayReader.load_data W self (Some b) doc_id = Raise e.
Proof.
  intros Hb Hr Hitems Hpre Hbad.
  rewrite (load_data_board_mode W self b doc_id Hb), Hr; cbn [bind].
  rewrite load_data_board_unfold, Hitems; cbn [bind].
  apply mapM_Forall2 in Hpre.
  rewrite (mapM_stops _ _ _ _ _ _ Hpre Hbad); reflexivity.
Qed.

Lemma first_failing_item_decides_witness :
  MondayReader.load_data
    (answering (VDict [("data",
                        VDict [("boards",
                                VList [VDict [("items",
                                               VList [sample_item_1; VInt 5;
                                                      sample_item_2])]])])])
               sample_loads)
    sample_reader (Some 12345%Z) None
  = Raise TypeError.
Proof.
  apply (first_failing_item_decides
           (answering (VDict [("data",
                               VDict [("boards",
                                       VList [VDict [("items",
                                                      VList [sample_item_1; VInt 5;
                                                             sample_item_2])]])])])
                      sample_loads)
           sample_reader 12345 None
           (VDict [("data",
                    VDict [("boards",
                            VList [VDict [("items",
                                           VList [sample_item_1; VInt 5;
                                                  sample_item_2])]])])])
           [sample_item_1] [sample_item_2] [parsed_item sample_it_1] (VInt 5)).
  - discriminate.
  - reflexivity.
  - reflexivity.
  - reflexivity.
  - reflexivity.
Defined.

(** In doc mode, when a block cannot be read, [load_data] raises that
    block's exception: no Document is returned and the blocks after it are
    not read. *)
Theorem first_failing_block_decides
        (W : World) (self : reader) (board_id : option Z) (d : Z)
        (r data blocks : value) (pre post : list value) (lines : list string)
        (bad : value) (e : exn) :
  id_truthy board_id = false ->
  d <> 0%Z ->
  MondayReader._perform_request W self board_id (Some d) = Ok r ->
  first_doc r = Ok data ->
  getitem data "blocks" = Ok blocks ->
  py_list blocks = Ok (pre ++ bad :: post)%list ->
  mapM (MondayReader._read_block W) pre = Ok lines ->
  MondayReader._read_block W bad = Raise e ->
  MondayReader.load_data W self board_id (Some d) = Raise e.
Proof.
  intros Hb Hd Hr Hdata Hblocks Hlist Hpre Hbad.
  rewrite (load_data_doc_mode W self board_id d Hb Hd), Hr; cbn [bind].
  rewrite load_data_doc_unfold, Hdata; cbn [bind].
  rewrite Hblocks; cbn [bind]; rewrite Hlist; cbn [bind].
  apply mapM_Forall2 in Hpre.
  rewrite (mapM_stops _ _ _ _ _ _ Hpre Hbad); reflexivity.
Qed.

Lemma first_failing_block_decides_witness :
  MondayReader.load_data
    (answering (doc_response_of [sample_block_1; garbled_block]) sample_loads)
    sample_reader None (Some 777%Z)
  = Raise (ExternalError "JSONDecodeError").
Proof.
  apply (first_failing_block_decides
           (answering (doc_response_of [sample_block_1; garbled_block]) sample_loads)
           sample_reader None 777
           (doc_response_of [sample_block_1; garbled_block])
           (VDict [("name", VStr "Notes");
                   ("blocks", VList [sample_block_1; garbled_block]);
                   ("created_by", VDict [("name", VStr "Ada")])])
           (VList [sample_block_1; garbled_block])
           [sample_block_1] []
           [block_text (hd [] (doc_blocks sample_doc))]
           garbled_block).
  - reflexivity.
  - discriminate.
  - reflexivity.
  - reflexivity.
  - reflexivity.
  - reflexivity.
  - reflexivity.
  - reflexivity.
Defined.

(** ** Reading a block (lines 129-139) *)

Lemma read_block_unfold (W : World) (block : value) :
  MondayReader._read_block W block
  = (content <- getitem block "content" ;;
     loaded <- match content with
               | VStr s => json_loads W s
               | _ => Raise TypeError
               end ;;
     deltaFormat <- getitem loaded "deltaFormat" ;;
     deltaFormat_array <- py_list deltaFormat ;;
     foldM read_step deltaFormat_array "").
Proof. reflexivity. Qed.

Lemma read_step_non_text (acc : string) (op v : value) :
  getitem op "insert" = Ok v ->
  is_VStr v = false ->
  read_step acc op = Raise TypeError.
Proof.
  intros Hins Hv; unfold read_step, MondayReader.insert_text.
  rewrite Hins; cbn [bind].
  destruct op as [| | | | | kvs]; try discriminate Hins.
  cbn [py_in bind getitem]; unfold dict_has.
  destruct (dict_get "attributes" kvs) as [a |]; cbn [bind].
  - destruct a as [| | | s | l | akvs]; cbn [py_in bind]; try reflexivity.
    + destruct (substring_in "link" s); cbn [bind];
        destruct v; try discriminate Hv; reflexivity.
    + destruct (existsb (is_str "link") l); cbn [bind];
        destruct v; try discriminate Hv; reflexivity.
    + destruct (dict_has "link" akvs); cbn [bind];
        destruct v; try discriminate Hv; reflexivity.
  - destruct v; try discriminate Hv; reflexivity.
Qed.

(** An operation whose [insert] is not a string (an embedded image, say)
    makes [_read_block] raise a [TypeError], also after operations that
    were read well. *)
Theorem read_block_non_text_insert
        (W : World) (block : value) (pre post : list value) (ops : list Insert)
        (bad v : value) :
  delta_of W block (pre ++ bad :: post) ->
  Forall2 is_insert pre ops ->
  getitem bad "insert" = Ok v ->
  is_VStr v = false ->
  MondayReader._read_block W block = Raise TypeError.
Proof.
  intros (s & loaded & Hc & Hl & Hd) Hpre Hins Hv.
  rewrite read_block_unfold, Hc; cbn [bind]; rewrite Hl; cbn [bind].
  rewrite Hd; cbn [bind py_list].
  rewrite foldM_app.
  change (foldM read_step pre "") with
    (foldM (fun block_text insert =>
              text <- MondayReader.insert_text insert ;;
              t <- str_add (VStr block_text) text ;;
              str_add (VStr t) (VStr (" " ++ TAB))) pre "").
  rewrite (inserts_loop _ _ _ Hpre); cbn [bind foldM].
  rewrite (read_step_non_text _ _ _ Hins Hv); reflexivity.
Qed.

Lemma read_block_non_text_insert_witness :
  MondayReader._read_block embed_world embed_block = Raise TypeError.
Proof.
  apply (read_block_non_text_insert
           embed_world embed_block [VDict [("insert", VStr "Hello")]] []
           [ {| ins_text := "Hello"; ins_link := None |} ] embed_op
           (VDict [("image", VStr "https://example.org/a.png")])).
  - exists embed_content; eexists; repeat split; reflexivity.
  - apply Forall2_cons; [| apply Forall2_nil].
    split; [reflexivity | left; reflexivity].
  - reflexivity.
  - reflexivity.
Defined.

(** The content of a block must be a string [json.loads] accepts: on any
    other value [_read_block] raises a [TypeError], and an exception of
    [json.loads] is raised as it is. *)
Theorem read_block_content_errors (W : World) (block content : value) :
  getitem block "content" = Ok content ->
  (is_VStr content = false ->
   MondayReader._read_block W block = Raise TypeError) /\
  (forall s e,
      content = VStr s -> json_loads W s = Raise e ->
      MondayReader._read_block W block = Raise e).
Proof.
  intros Hc; rewrite read_block_unfold, Hc; cbn [bind]; split.
  - intros Hv; destruct content; try discriminate Hv; reflexivity.
  - intros s e -> He; rewrite He; reflexivity.
Qed.

Lemma read_block_content_errors_witness :
  MondayReader._read_block monday_world garbled_block
  = Raise (ExternalError "JSONDecodeError").
Proof.
  apply (proj2 (read_block_content_errors monday_world garbled_block
                                          (VStr "{oops") eq_refl)
               "{oops");
    reflexivity.
Defined.

Lemma read_step_shift (acc : string) (op : value) :
  read_step acc op
  = match read_step "" op with
    | Ok t => Ok (acc ++ t)
    | Raise e => Raise e
    end.
Proof.
  unfold read_step.
  destruct (MondayReader.insert_text op) as [text | e]; [| reflexivity].
  cbn [bind]; destruct text; try reflexivity.
  cbn [str_add bind append]. rewrite append_assoc; reflexivity.
Qed.

Lemma read_loop_shift (arr : list value) (acc : string) :
  foldM read_step arr acc
  = match foldM read_step arr "" with
    | Ok t => Ok (acc ++ t)
    | Raise e => Raise e
    end.
Proof.
  revert acc; induction arr as [| op arr IH]; intros acc; cbn [foldM].
  - rewrite append_nil_r; reflexivity.
  - rewrite (read_step_shift acc op).
    destruct (read_step "" op) as [t |]; cbn [bind]; [| reflexivity].
    rewrite (IH (acc ++ t)), (IH t).
    destruct (foldM read_step arr "") as [t' |]; [| reflexivity].
    rewrite append_assoc; reflexivity.
Qed.

(** Reading is compositional: a block that holds the operations of one
    block followed by those of another reads as the two texts one after
    the other. *)
Theorem read_block_concat
        (W : World) (b1 b2 b12 : value) (arr1 arr2 : list value) (t1 t2 : string) :
  delta_of W b1 arr1 ->
  delta_of W b2 arr2 ->
  delta_of W b12 (arr1 ++ arr2) ->
  MondayReader._read_block W b1 = Ok t1 ->
  MondayReader._read_block W b2 = Ok t2 ->
  MondayReader._read_block W b12 = Ok (t1 ++ t2).
Proof.
  intros (s1 & l1 & Hc1 & Hl1 & Hd1) (s2 & l2 & Hc2 & Hl2 & Hd2)
         (s & l & Hc & Hl & Hd).
  rewrite !read_block_unfold.
  rewrite Hc1, Hc2, Hc; cbn [bind]; rewrite Hl1, Hl2, Hl; cbn [bind].
  rewrite Hd1, Hd2, Hd; cbn [bind py_list].
  intros H1 H2; rewrite foldM_app, H1; cbn [bind].
  rewrite read_loop_shift, H2; reflexivity.
Qed.

Lemma read_block_concat_witness :
  MondayReader._read_block half_world sample_block_1
  = Ok (("Hello " ++ TAB) ++ ("site url: https://example.org " ++ TAB)).
Proof.
  apply (read_block_concat
           half_world
           (VDict [("content", VStr half_content_1)])
           (VDict [("content", VStr half_content_2)])
           sample_block_1
           [VDict [("insert", VStr "Hello")]] [sample_op_link]).
  - exists half_content_1; eexists; repeat split; reflexivity.
  - exists half_content_2; eexists; repeat split; reflexivity.
  - exists sample_content_1; eexists; repeat split; reflexivity.
  - reflexivity.
  - reflexivity.
Defined.

(** ** A doc without blocks (lines 220-224) *)

(** A doc that has no blocks still gives one Document; its text is
    empty. *)
Theorem empty_doc_one_empty_document
        (W : World) (self : reader) (board_id : option Z) (d : Z)
        (r data name creator creator_name : value) :
  id_truthy board_id = false ->
  d <> 0%Z ->
  MondayReader._perform_request W self board_id (Some d) = Ok r ->
  first_doc r = Ok data ->
  getitem data "blocks" = Ok (VList []) ->
  getitem data "name" = Ok name ->
  getitem data "created_by" = Ok creator ->
  getitem creator "name" = Ok creator_name ->
  MondayReader.load_data W self board_id (Some d)
  = Ok [ {| text := "";
            extra_info := [("doc_id", VInt d); ("doc_name", name);
                           ("created_by", creator_name)] |} ].
Proof.
  intros Hb Hd Hr Hdata Hblocks Hn Hc Hcn.
  rewrite (load_data_doc_mode W self board_id d Hb Hd), Hr; cbn [bind].
  rewrite load_data_doc_unfold, Hdata; cbn [bind].
  rewrite Hblocks; cbn [bind py_list mapM].
  rewrite Hn; cbn [bind]; rewrite Hc; cbn [bind]; rewrite Hcn; reflexivity.
Qed.

Lemma empty_doc_one_empty_document_witness :
  MondayReader.load_data (answering (doc_response_of []) sample_loads)
                         sample_reader None (Some 777%Z)
  = Ok [ {| text := "";
            extra_info := [("doc_id", VInt 777); ("doc_name", VStr "Notes");
                           ("created_by", VStr "Ada")] |} ].
Proof.
  apply (empty_doc_one_empty_document
           (answering (doc_response_of []) sample_loads) sample_reader None 777
           (doc_response_of [])
           (VDict [("name", VStr "Notes"); ("blocks", VList []);
                   ("created_by", VDict [("name", VStr "Ada")])])
           (VStr "Notes") (VDict [("name", VStr "Ada")]) (VStr "Ada")).
  - reflexivity.
  - discriminate.
  - reflexivity.
  - reflexivity.
  - reflexivity.
  - reflexivity.
  - reflexivity.
  - reflexivity.
Defined.

(** ** The doc branch, exactly (lines 129-139 and 219-224) *)

Lemma insert_text_iter_ok (op : value) (i : Insert) :
  is_insert_iter op i -> MondayReader.insert_text op = Ok (VStr (op_text i)).
Proof.
  destruct i as [t link]; intros [Hins Hlink]; cbn [ins_text ins_link] in *.
  destruct link as [l |].
  - apply (insert_text_ok op {| ins_text := t; ins_link := Some l |}).
    split; [exact Hins | exact Hlink].
  - unfold MondayReader.insert_text, op_text; cbn [ins_text ins_link].
    rewrite Hins; cbn [bind].
    destruct Hlink as [Habs | (a & Ha & Hin)].
    + rewrite (absent_py_in _ _ Habs); reflexivity.
    + rewrite (present_py_in _ _ _ Ha); cbn [bind].
      rewrite Ha; cbn [bind]; rewrite Hin; reflexivity.
Qed.

Lemma str_add_Ok_inv (a b : value) (t : string) :
  str_add a b = Ok t -> exists x y, a = VStr x /\ b = VStr y /\ t = x ++ y.
Proof.
  destruct a, b; simpl; try discriminate.
  intros H; injection H as <-; eauto.
Qed.

Lemma py_in_false_absent (v : value) (k : string) (kvs : list (string * value)) :
  v = VDict kvs -> py_in k v = Ok false -> absent v k.
Proof.
  intros -> H; unfold absent; simpl in *.
  unfold dict_has in H; destruct (dict_get k kvs); [discriminate H | reflexivity].
Qed.

Lemma insert_text_inv (op : value) (s : string) :
  MondayReader.insert_text op = Ok (VStr s) ->
  exists i, is_insert_iter op i /\ s = op_text i.
Proof.
  unfold MondayReader.insert_text; intros H.
  apply bind_Ok_inv in H as (x & Hx & H).
  apply bind_Ok_inv in H as (ha & Hha & H).
  destruct ha.
  - apply bind_Ok_inv in H as (a & Ha & H).
    apply bind_Ok_inv in H as (hl & Hhl & H).
    destruct hl.
    + apply bind_Ok_inv in H as (t & Ht & H).
      apply bind_Ok_inv in H as (a' & Ha' & H).
      apply bind_Ok_inv in H as (link & Hlink & H).
      apply bind_Ok_inv in H as (t' & Ht' & H).
      injection H as <-.
      rewrite Ha in Ha'; injection Ha' as <-.
      apply str_add_Ok_inv in Ht as (xs & y & -> & Hy & ->).
      injection Hy as <-.
      apply str_add_Ok_inv in Ht' as (z & l & Hz & -> & ->).
      injection Hz as <-.
      exists {| ins_text := xs; ins_link := Some l |}; split.
      * split; [exact Hx | exists a; split; assumption].
      * unfold op_text; cbn [ins_link ins_text]. apply append_assoc.
    + injection H as ->.
      exists {| ins_text := s; ins_link := None |}; split; [| reflexivity].
      split; [exact Hx | right; exists a; split; assumption].
  - injection H as ->.
    exists {| ins_text := s; ins_link := None |}; split; [| reflexivity].
    split; [exact Hx | left].
    destruct op as [| | | | | kvs]; try discriminate Hx.
    apply (py_in_false_absent _ _ kvs eq_refl Hha).
Qed.

Lemma read_step_exact (acc : string) (op : value) (t : string) :
  read_step acc op = Ok t
  <-> exists i, is_insert_iter op i /\ t = acc ++ op_text i ++ " " ++ TAB.
Proof.
  unfold read_step; split.
  - intros H.
    apply bind_Ok_inv in H as (text & Htext & H).
    apply bind_Ok_inv in H as (t0 & Ht0 & H).
    apply str_add_Ok_inv in Ht0 as (x & s & Hx & -> & ->).
    injection Hx as <-.
    apply str_add_Ok_inv in H as (x & y & Hx & Hy & ->).
    injection Hx as <-; injection Hy as <-.
    apply insert_text_inv in Htext as (i & Hi & ->).
    exists i; split; [exact Hi | apply append_assoc].
  - intros (i & Hi & ->).
    rewrite (insert_text_iter_ok _ _ Hi); cbn [bind str_add].
    rewrite append_assoc; reflexivity.
Qed.

Lemma read_loop_exact (arr : list value) (acc t : string) :
  foldM read_step arr acc = Ok t
  <-> exists ops, Forall2 is_insert_iter arr ops /\ t = acc ++ block_text ops.
Proof.
  revert acc t; induction arr as [| op arr IH]; intros acc t; cbn [foldM]; split.
  - intros H; injection H as <-.
    exists []; split; [constructor | symmetry; apply append_nil_r].
  - intros (ops & Hops & ->); inversion Hops; subst.
    unfold block_text; cbn [map String.concat].
    rewrite (append_nil_r acc); reflexivity.
  - intros H; apply bind_Ok_inv in H as (s' & Hs' & H).
    apply read_step_exact in Hs' as (i & Hi & ->).
    apply IH in H as (ops & Hops & ->).
    exists (i :: ops); split; [constructor; assumption |].
    unfold block_text; cbn [map]; rewrite concat_empty_cons.
    rewrite !append_assoc; reflexivity.
  - intros (ops & Hops & ->).
    inversion Hops as [| op' i arr' ops' Hi Hrest]; subst.
    rewrite (proj2 (read_step_exact acc op _) (ex_intro _ i (conj Hi eq_refl))).
    cbn [bind]; apply IH; exists ops'; split; [exact Hrest |].
    unfold block_text; cbn [map]; rewrite concat_empty_cons.
    rewrite !append_assoc; reflexivity.
Qed.

Lemma read_block_inv (W : World) (block : value) (t : string) :
  MondayReader._read_block W block = Ok t ->
  exists ops, is_block_iter W block ops /\ t = block_text ops.
Proof.
  rewrite read_block_unfold; intros H.
  apply bind_Ok_inv in H as (content & Hc & H).
  apply bind_Ok_inv in H as (loaded & Hl & H).
  apply bind_Ok_inv in H as (delta & Hd & H).
  apply bind_Ok_inv in H as (arr & Harr & H).
  apply read_loop_exact in H as (ops & Hops & ->).
  destruct content as [| | | s | |]; try discriminate Hl.
  exists ops; split; [| reflexivity].
  exists s, loaded, delta, arr; repeat split; assumption.
Qed.

Lemma read_block_iter_ok (W : World) (block : value) (ops : list Insert) :
  is_block_iter W block ops ->
  MondayReader._read_block W block = Ok (block_text ops).
Proof.
  intros (s & loaded & delta & arr & Hc & Hl & Hd & Harr & Hops).
  rewrite read_block_unfold.
  rewrite Hc; cbn [bind]; rewrite Hl; cbn [bind]; rewrite Hd; cbn [bind].
  rewrite Harr; cbn [bind].
  apply read_loop_exact; exists ops; split; [exact Hops | reflexivity].
Qed.

(** [_read_block] returns exactly on the blocks whose content is a string
    that [json.loads] turns into an object with an iterable [deltaFormat],
    each operation of which has a string [insert] and, if it carries a
    link, a string link; the text is then the operations' texts, each
    followed by a space and a tab. *)
Theorem read_block_exact (W : World) (block : value) (t : string) :
  MondayReader._read_block W block = Ok t
  <-> exists ops, is_block_iter W block ops /\ t = block_text ops.
Proof.
  split.
  - apply read_block_inv.
  - intros (ops & Hops & ->); apply read_block_iter_ok; exact Hops.
Qed.

Lemma read_block_exact_witness :
  MondayReader._read_block monday_world sample_block_1
  = Ok (block_text [ {| ins_text := "Hello"; ins_link := None |};
                     {| ins_text := "site";
                        ins_link := Some "https://example.org" |} ]).
Proof.
  apply (proj2 (read_block_exact monday_world sample_block_1 _)).
  eexists; split; [| reflexivity].
  exists sample_content_1, sample_delta_1; eexists; eexists.
  split; [reflexivity |]. split; [reflexivity |].
  split; [reflexivity |]. split; [reflexivity |].
  apply Forall2_cons; [| apply Forall2_cons; [| apply Forall2_nil]].
  - split; [reflexivity | left; reflexivity].
  - split; [reflexivity | eexists; split; reflexivity].
Defined.

Lemma read_blocks_exact (W : World) (blocks : list value) (lines : list string) :
  mapM (MondayReader._read_block W) blocks = Ok lines
  <-> exists bl, Forall2 (is_block_iter W) blocks bl /\ lines = map block_text bl.
Proof.
  split.
  - intros H; apply mapM_Forall2 in H.
    apply Forall2_image.
    eapply Forall2_impl; [| exact H].
    intros b t Ht; apply read_block_inv; exact Ht.
  - intros (bl & Hbl & ->); apply mapM_Forall2.
    induction Hbl as [| b ops blocks bl Hb _ IH]; simpl; constructor.
    + apply read_block_iter_ok; exact Hb.
    + exact IH.
Qed.

(** In doc mode, once the request is answered, [load_data] returns exactly
    when the first doc of the response is a doc in the sense of
    [is_doc_iter]; what it returns is then the one Document of that doc.
    On every other response it raises. *)
Theorem load_data_doc_exact
        (W : World) (self : reader) (board_id : option Z) (d : Z)
        (r : value) (docs : list Document) :
  id_truthy board_id = false ->
  d <> 0%Z ->
  MondayReader._perform_request W self board_id (Some d) = Ok r ->
  (MondayReader.load_data W self board_id (Some d) = Ok docs
   <-> exists data doc,
         first_doc r = Ok data /\
         is_doc_iter W data doc /\
         docs = [doc_document (Some d) doc]).
Proof.
  intros Hb Hd Hr.
  rewrite (load_data_doc_mode W self board_id d Hb Hd), Hr; cbn [bind].
  rewrite load_data_doc_unfold; split.
  - intros H.
    apply bind_Ok_inv in H as (data & Hdata & H).
    apply bind_Ok_inv in H as (blocks & Hblocks & H).
    apply bind_Ok_inv in H as (blocks_array & Harr & H).
    apply bind_Ok_inv in H as (lines & Hlines & H).
    apply bind_Ok_inv in H as (n & Hn & H).
    apply bind_Ok_inv in H as (c & Hc & H).
    apply bind_Ok_inv in H as (cn & Hcn & H).
    injection H as <-.
    apply read_blocks_exact in Hlines as (bl & Hbl & ->).
    exists data, {| doc_name := n; doc_creator := cn; doc_blocks := bl |}.
    split; [exact Hdata |]. split; [| reflexivity].
    split; [exists blocks, blocks_array; repeat split; assumption |].
    split; [exact Hn | exists c; split; assumption].
  - intros (data & doc & Hdata
            & ((blocks & blocks_array & Hblocks & Harr & Hbl) & Hn & c & Hc & Hcn)
            & ->).
    rewrite Hdata; cbn [bind]; rewrite Hblocks; cbn [bind]; rewrite Harr; cbn [bind].
    rewrite (proj2 (read_blocks_exact W blocks_array (map block_text (doc_blocks doc))));
      [| exists (doc_blocks doc); split; [exact Hbl | reflexivity]].
    cbn [bind]; rewrite Hn; cbn [bind]; rewrite Hc; cbn [bind]; rewrite Hcn.
    reflexivity.
Qed.

Lemma load_data_doc_exact_witness :
  MondayReader.load_data monday_world sample_reader None (Some 777%Z)
  = Ok [doc_document (Some 777%Z) sample_doc]
  <-> exists data doc,
        first_doc sample_doc_response = Ok data /\
        is_doc_iter monday_world data doc /\
        [doc_document (Some 777%Z) sample_doc] = [doc_document (Some 777%Z) doc].
Proof.
  apply (load_data_doc_exact monday_world sample_reader None 777
                             sample_doc_response).
  - reflexivity.
  - discriminate.
  - reflexivity.
Defined.

(** ** What [load_data] can raise *)

Section Only.

Variable P : exn -> Prop.
Hypothesis builtin_P : forall e, builtin_error e -> P e.

Lemma only_Ok {A : Type} (a : A) : raises_only P (Ok a).
Proof. intros e H; discriminate H. Qed.

Lemma only_bind {A B : Type} (c : result A) (k : A -> result B) :
  raises_only P c -> (forall a, raises_only P (k a)) -> raises_only P (bind c k).
Proof.
  intros Hc Hk e; destruct c as [a | e']; simpl.
  - apply Hk.
  - intros H; injection H as ->; apply Hc; reflexivity.
Qed.

Lemma only_mapM {A B : Type} (f : A -> result B) (l : list A) :
  (forall a, raises_only P (f a)) -> raises_only P (mapM f l).
Proof.
  intros Hf; induction l as [| a l IH]; simpl.
  - apply only_Ok.
  - apply only_bind; [apply Hf | intros b].
    apply only_bind; [exact IH | intros bs; apply only_Ok].
Qed.

Lemma only_foldM {A S : Type} (body : S -> A -> result S) (l : list A) (s : S) :
  (forall s a, raises_only P (body s a)) -> raises_only P (foldM body l s).
Proof.
  intros Hb; revert s; induction l as [| a l IH]; intros s; simpl.
  - apply only_Ok.
  - apply only_bind; [apply Hb | exact IH].
Qed.

Lemma only_getitem (v : value) (k : string) : raises_only P (getitem v k).
Proof.
  intros e; destruct v; simpl; try (intros H; injection H as <-; apply builtin_P; exact I).
  destruct (dict_get k kvs); intros H; [discriminate H |].
  injection H as <-; apply builtin_P; exact I.
Qed.

Lemma only_getitem0 (v : value) : raises_only P (getitem0 v).
Proof.
  intros e; destruct v as [| | | s | l |]; simpl;
    try (intros H; injection H as <-; apply builtin_P; exact I).
  - destruct s; intros H; [| discriminate H].
    injection H as <-; apply builtin_P; exact I.
  - destruct l; intros H; [| discriminate H].
    injection H as <-; apply builtin_P; exact I.
Qed.

Lemma only_py_list (v : value) : raises_only P (py_list v).
Proof.
  intros e; destruct v; simpl; intros H; try discriminate H;
    injection H as <-; apply builtin_P; exact I.
Qed.

Lemma only_py_in (k : string) (v : value) : raises_only P (py_in k v).
Proof.
  intros e; destruct v; simpl; intros H; try discriminate H;
    injection H as <-; apply builtin_P; exact I.
Qed.

Lemma only_str_add (a b : value) : raises_only P (str_add a b).
Proof.
  intros e; destruct a, b; simpl; intros H; try discriminate H;
    injection H as <-; apply builtin_P; exact I.
Qed.

End Only.

Ltac only_step HP :=
  first
    [ match goal with
      | H : forall x, raises_only _ _ |- _ => apply H
      end
    | apply only_Ok
    | apply (only_getitem _ HP)
    | apply (only_getitem0 _ HP)
    | apply (only_py_list _ HP)
    | apply (only_py_in _ HP)
    | apply (only_str_add _ HP)
    | apply only_bind; [| intros ?]
    | apply only_mapM; intros ?
    | apply only_foldM; intros ? ?
    | match goal with
      | |- raises_only _ (if ?c then _ else _) => destruct c
      end ].

Ltac only_tac HP := repeat (only_step HP).

Lemma board_raises_builtin (W : World) (board_id : option Z) (r : value) :
  raises_only builtin_error (MondayReader.load_data_board W board_id r).
Proof.
  assert (HP : forall e, builtin_error e -> builtin_error e) by (intros e H; exact H).
  unfold MondayReader.load_data_board, MondayReader.item_text,
    MondayReader._parse_data, MondayReader._parse_item_values.
  only_tac HP.
Qed.

Lemma read_block_raises (W : World) (block : value) :
  raises_only (fun e => builtin_error e \/ json_raises W e)
              (MondayReader._read_block W block).
Proof.
  assert (HP : forall e, builtin_error e -> builtin_error e \/ json_raises W e)
    by (intros e H; left; exact H).
  unfold MondayReader._read_block, MondayReader.insert_text.
  only_tac HP.
  intros e H; destruct a as [| | | s | |];
    try (injection H as <-; left; exact I).
  right; exists s; exact H.
Qed.

Lemma doc_raises (W : World) (doc_id : option Z) (r : value) :
  raises_only (fun e => builtin_error e \/ json_raises W e)
              (MondayReader.load_data_doc W doc_id r).
Proof.
  assert (HP : forall e, builtin_error e -> builtin_error e \/ json_raises W e)
    by (intros e H; left; exact H).
  pose proof (read_block_raises W) as Hblock.
  unfold MondayReader.load_data_doc.
  only_tac HP.
Qed.

(** How a call is dispatched. *)
Lemma load_data_dispatch
      (W : World) (self : reader) (board_id doc_id : option Z) :
  (board_id = None /\ doc_id = None /\
   MondayReader.load_data W self board_id doc_id = Raise precondition_error) \/
  (id_truthy board_id = false /\ id_truthy doc_id = false /\
   MondayReader.load_data W self board_id doc_id
   = Raise (UnboundLocalError "query")) \/
  (formattable board_id && formattable doc_id = false /\
   MondayReader.load_data W self board_id doc_id = Raise ValueError) \/
  (exists rq,
      MondayReader.request self board_id doc_id = Ok rq /\
      (id_truthy board_id = false -> id_truthy doc_id = true) /\
      MondayReader.load_data W self board_id doc_id
      = (r <- post_json W rq ;;
         if id_truthy board_id
         then MondayReader.load_data_board W board_id r
         else MondayReader.load_data_doc W doc_id r)).
Proof.
  destruct (formattable board_id && formattable doc_id) eqn:Hf.
  2:{ right; right; left; split; [reflexivity |].
      apply unformattable_id_ValueError; exact Hf. }
  revert Hf.
  unfold formattable, MondayReader.load_data, MondayReader._perform_request.
  rewrite request_table.
  destruct board_id as [b |], doc_id as [d |]; cbn [id_int is_not_None orb negb];
    change (id_truthy None) with false; cbn [negb orb andb bind];
    try destruct (id_truthy (Some b)) eqn:Hb;
    try destruct (id_truthy (Some d)) eqn:Hd;
    cbn [negb orb andb bind];
    try destruct (fits b); try destruct (fits d); cbn [negb andb bind];
    intros Hf; try discriminate Hf;
    first
      [ left; repeat split; reflexivity
      | right; left; repeat split; reflexivity
      | right; right; right; eexists; split; [reflexivity |];
        split; [intros H; reflexivity || discriminate H |];
        destruct (post_json W _); reflexivity ].
Qed.



(** The [return result] that ends [load_data] never fails: unless the
    outside world raises such an exception itself, [load_data] does not
    raise an unbound-variable error for [result]. *)
Theorem result_is_bound_at_return
        (W : World) (self : reader) (board_id doc_id : option Z) :
  ~ http_raises W (UnboundLocalError "result") ->
  ~ json_raises W (UnboundLocalError "result") ->
  MondayReader.load_data W self board_id doc_id
  <> Raise (UnboundLocalError "result").
Proof.
  intros Hhttp Hjson H.
  destruct (load_data_dispatch W self board_id doc_id)
    as [(_ & _ & Heq) | [(_ & _ & Heq) | [(_ & Heq) | (rq & _ & _ & Heq)]]];
    rewrite Heq in H; try discriminate H.
  destruct (post_json W rq) as [r | e'] eqn:Hpost; cbn [bind] in H.
  - destruct (id_truthy board_id).
    + apply board_raises_builtin in H; exact H.
    + apply doc_raises in H as [H | H]; [exact H | exact (Hjson H)].
  - injection H as ->; apply Hhttp; exists rq; exact Hpost.
Qed.

Lemma answering_raises_no_unbound (r : value) :
  ~ http_raises (answering r sample_loads) (UnboundLocalError "result") /\
  ~ json_raises (answering r sample_loads) (UnboundLocalError "result").
Proof.
  split; intros (x & H); simpl in H; [discriminate H |].
  unfold sample_loads in H.
  destruct (String.eqb x sample_content_1); [discriminate H |].
  destruct (String.eqb x sample_content_2); discriminate H.
Qed.

Lemma result_is_bound_at_return_witness :
  MondayReader.load_data (answering sample_board_response sample_loads)
                         sample_reader (Some 0%Z) None
  <> Raise (UnboundLocalError "result").
Proof.
  apply (result_is_bound_at_return
           (answering sample_board_response sample_loads) sample_reader
           (Some 0%Z) None).
  - apply (proj1 (answering_raises_no_unbound sample_board_response)).
  - apply (proj2 (answering_raises_no_unbound sample_board_response)).
Defined.

(** ** An identifier too long to format (lines 145-160 and 163-180) *)

(** When an identifier that is truthy has more digits than the limit on
    integer-to-string conversion allows, [load_data] raises a
    [ValueError] when the query is built; this is so whatever the outside
    world is, as nothing is posted. *)
Theorem too_long_id_ValueError
        (W : World) (self : reader) (board_id doc_id : option Z) :
  (id_truthy board_id = true /\ fits (id_int board_id) = false) \/
  (id_truthy doc_id = true /\ fits (id_int doc_id) = false) ->
  MondayReader.load_data W self board_id doc_id = Raise ValueError.
Proof.
  intros H; apply unformattable_id_ValueError; unfold formattable.
  destruct H as [[Ht Hf] | [Ht Hf]]; rewrite Ht, Hf; cbn [negb orb andb].
  - reflexivity.
  - apply andb_false_r.
Qed.

Lemma huge_id_does_not_fit : fits huge_id = false.
Proof.
  unfold fits, decimal_digits, format_d.
  rewrite Z.abs_eq.
  - unfold huge_id; rewrite DecimalZ.to_of. reflexivity.
  - unfold huge_id; change (Z.of_int (Decimal.Pos huge_digits))
      with (Z.of_N (Pos.of_uint huge_digits)).
    apply N2Z.is_nonneg.
Qed.

Lemma huge_id_is_truthy : id_truthy (Some huge_id) = true.
Proof.
  unfold id_truthy, id_value, truthy.
  destruct (Z.eqb_spec huge_id 0) as [E | _]; [| reflexivity].
  pose proof huge_id_does_not_fit as H; rewrite E in H; discriminate H.
Qed.

Lemma too_long_id_ValueError_witness :
  MondayReader.load_data monday_world sample_reader (Some huge_id) None
  = Raise ValueError.
Proof.
  apply (too_long_id_ValueError monday_world sample_reader (Some huge_id) None).
  left; split.
  - exact huge_id_is_truthy.
  - exact huge_id_does_not_fit.
Defined.
